(** * The annotation session of streamlit_UI_final.py

    A shallow embedding of the Streamlit script: its session state, the
    snapshot it writes after every step, the image loader, and one
    execution of the script per user action.

    Conventions.
    - A text is a [string] whose characters are code points below 256.
    - A JSON value read from or written to disk is a [json] tree; a Python
      dict is an association list in insertion order.
    - The directory of saved annotations is a finite map from path to the
      document stored there; [json.dump] followed by [json.load] is the
      identity on such documents.
    - Opening the snapshot file for writing can fail; on which paths
      [open] succeeds is a parameter of the model ([writable]), and the
      write that follows a successful [open] is taken to succeed.  A
      failing [open] raises ValueError on a path holding a NUL and an
      OSError (of whatever subclass) otherwise.
    - What [Image.open] does on a path and what [st.image] does with an
      opened image are parameters: either may raise.  [st.columns(0)]
      raises StreamlitAPIException.
    - An event is the click that made the script run, if any.  Whether a
      click finds its button is decided by the script's own guards, which
      are modelled.  For Save Scene & Continue the drawing of the visuals,
      lines 168-185, also comes before the button: [ClickSaveScene] is a
      click that found it, that is, a run in which line 210 returned True,
      so the drawing before it raised nothing.  A click on that button that
      arrives while the pending scene cannot be drawn never reaches line
      210; it has the effect of a run without a click and is the event
      [NoClick].
    - The remaining calls that only draw (titles, expanders, captions,
      radios) are taken to succeed and are left out.  Messages of
      [st.error] and [st.success] and the progress bar are kept on a
      [screen], without their pictographs. *)

From Stdlib Require Import ZArith String Ascii.
From stdpp Require Import gmap strings list fin_maps.

Open Scope string_scope.
Open Scope list_scope.
Set Warnings "-register-all".

(** ** JSON documents and Python dicts *)

Inductive json :=
| JNull
| JInt (n : Z)
| JStr (s : string)
| JList (items : list json)
| JObj (fields : list (string * json)).

(** [d[k]] on a dict kept as an association list. *)
Fixpoint assoc {A : Type} (k : string) (d : list (string * A)) : option A :=
  match d with
  | [] => None
  | (k', v) :: d' => if String.eqb k k' then Some v else assoc k d'
  end.

(** [d[k] = v]: replaces in place, or appends a new key at the end. *)
Fixpoint dict_set {A : Type} (k : string) (v : A) (d : list (string * A))
  : list (string * A) :=
  match d with
  | [] => [(k, v)]
  | (k', v') :: d' =>
      if String.eqb k k' then (k, v) :: d' else (k', v') :: dict_set k v d'
  end.

Definition field (k : string) (j : json) : option json :=
  match j with
  | JObj fs => assoc k fs
  | _ => None
  end.

Definition keys (j : json) : list string :=
  match j with
  | JObj fs => fst <$> fs
  | _ => []
  end.

(** ** [str.strip] *)

(** [str.isspace] on one character below 256. *)
Definition isspace (c : ascii) : bool :=
  let n := nat_of_ascii c in
  ((9 <=? n) && (n <=? 13) || (28 <=? n) && (n <=? 32)
   || (n =? 133) || (n =? 160))%nat.

Fixpoint lstrip (s : string) : string :=
  match s with
  | EmptyString => EmptyString
  | String c s' => if isspace c then lstrip s' else s
  end.

Fixpoint rstrip (s : string) : string :=
  match s with
  | EmptyString => EmptyString
  | String c s' =>
      match rstrip s' with
      | EmptyString => if isspace c then EmptyString else String c EmptyString
      | r => String c r
      end
  end.

Definition strip (s : string) : string := rstrip (lstrip s).

(** ** Catalog records and session state *)

Record SceneRecord := {
  scene_id : string;
  shots : list string;
  movie_A_image_paths : list string;
  movie_B_image_paths : list string
}.

(** [st.session_state], lines 28-38. *)
Record SessionState := {
  ldapid : option string;
  scene_idx : nat;
  scene_results : list json;
  submitted_movie : bool
}.

Definition initial_session : SessionState :=
  {| ldapid := None; scene_idx := 0; scene_results := [];
     submitted_movie := false |}.

Inductive Output :=
| StError (msg : string)
| StSuccess (msg : string)
| StProgress (done total : nat).

Record World := {
  session : SessionState;
  disk : gmap string json;
  screen : list Output
}.

(** ** Script executions: state, exceptions and Streamlit's control flow *)

(** [OSError] stands for the class and its subclasses; [OtherError] for any
    exception not listed. *)
Inductive exn :=
| ZeroDivisionError | OSError | IndexError | KeyError
| ValueError | StreamlitAPIException
| OtherError (name : string).

Inductive signal :=
| Raise (e : exn)
| StopScript       (* st.stop() *)
| RerunScript.     (* st.rerun() *)

Inductive outcome (A : Type) :=
| Ok (a : A)
| Abort (s : signal).
Arguments Ok {A} a.
Arguments Abort {A} s.

Definition M (A : Type) : Type := World -> outcome A * World.

#[export] Instance M_ret : MRet M := fun A a w => (Ok a, w).
#[export] Instance M_bind : MBind M := fun A B f m w =>
  match m w with
  | (Ok a, w') => f a w'
  | (Abort s, w') => (Abort s, w')
  end.

Definition raise {A : Type} (e : exn) : M A := fun w => (Abort (Raise e), w).
Definition st_stop : M unit := fun w => (Abort StopScript, w).
Definition st_rerun : M unit := fun w => (Abort RerunScript, w).

(** A bare [except:] clause: whatever stops the body, the handler runs. *)
Definition try_except {A : Type} (body handler : M A) : M A := fun w =>
  match body w with
  | (Ok a, w') => (Ok a, w')
  | (Abort _, w') => handler w'
  end.

Definition gets {A : Type} (f : SessionState -> A) : M A :=
  fun w => (Ok (f (session w)), w).

Definition modify (f : SessionState -> SessionState) : M unit :=
  fun w => (Ok tt, {| session := f (session w); disk := disk w;
                      screen := screen w |}).

Definition show (o : Output) : M unit :=
  fun w => (Ok tt, {| session := session w; disk := disk w;
                      screen := screen w ++ [o] |}).

Definition set_ldapid (v : string) (s : SessionState) : SessionState :=
  {| ldapid := Some v; scene_idx := scene_idx s;
     scene_results := scene_results s; submitted_movie := submitted_movie s |}.

(** [scene_results.append(r)] *)
Definition append_result (r : json) (s : SessionState) : SessionState :=
  {| ldapid := ldapid s; scene_idx := scene_idx s;
     scene_results := scene_results s ++ [r];
     submitted_movie := submitted_movie s |}.

(** [scene_idx += 1] *)
Definition incr_scene_idx (s : SessionState) : SessionState :=
  {| ldapid := ldapid s; scene_idx := S (scene_idx s);
     scene_results := scene_results s; submitted_movie := submitted_movie s |}.

Definition set_submitted_movie (b : bool) (s : SessionState) : SessionState :=
  {| ldapid := ldapid s; scene_idx := scene_idx s;
     scene_results := scene_results s; submitted_movie := b |}.

(** ** Widgets *)

(** [st.radio(label, options)]: the option at the selected position; the
    page offers the listed options only and starts on the first. *)
Definition st_radio {A : Type} (options : list A) (first : A) (sel : nat) : A :=
  nth sel options first.

Definition ratings : list Z := [1; 2; 3; 4; 5]%Z.
Definition preferences : list string := ["Movie A"; "Movie B"; "Tie"].

Definition radio_rating (sel : nat) : Z := st_radio ratings 1%Z sel.
Definition radio_preference (sel : nat) : string :=
  st_radio preferences "Movie A" sel.

(** The values of the widgets of the scene form, as positions in their
    option lists, and the text of the comment box. *)
Record SceneForm := {
  sel_bgA : nat; sel_charA : nat; sel_cineA : nat;
  sel_bgB : nat; sel_charB : nat; sel_cineB : nat;
  sel_pair_bg : nat; sel_pair_char : nat; sel_pair_cine : nat;
  comment : string
}.

Record MovieForm := {
  sel_narA : nat; sel_charA_m : nat; sel_spaceA : nat;
  sel_narB : nat; sel_charB_m : nat; sel_spaceB : nat;
  sel_pair_nar : nat; sel_pair_char_m : nat; sel_pair_space : nat
}.

(** What made the script run: a button that was pressed, with the widget
    values of its page, or anything else ([NoClick]).  A click reaches its
    handler only if the run draws that button.  [ClickSaveScene] is a
    click for which line 210 returned True whenever a scene is pending. *)
Inductive Event :=
| NoClick
| ClickStart (ldap : string)
| ClickSaveScene (f : SceneForm)
| ClickSubmitFinal (f : MovieForm).

(** ** The dicts built by the two forms *)

(** Lines 211-229. *)
Definition scene_result (scene : SceneRecord)
    (bgA charA cineA bgB charB cineB : Z)
    (pair_bg pair_char pair_cine comment : string) : json :=
  JObj [("scene_id", JStr (scene_id scene));
        ("movie_A", JObj [("background", JInt bgA);
                          ("character", JInt charA);
                          ("cinematic", JInt cineA)]);
        ("movie_B", JObj [("background", JInt bgB);
                          ("character", JInt charB);
                          ("cinematic", JInt cineB)]);
        ("pairwise", JObj [("background", JStr pair_bg);
                           ("character", JStr pair_char);
                           ("cinematic", JStr pair_cine)]);
        ("comment", JStr comment)].

(** Lines 256-272. *)
Definition movie_result (narA charA_m spaceA narB charB_m spaceB : Z)
    (pair_nar pair_char pair_space : string) : json :=
  JObj [("movie_A", JObj [("narrative", JInt narA);
                          ("character", JInt charA_m);
                          ("spatial", JInt spaceA)]);
        ("movie_B", JObj [("narrative", JInt narB);
                          ("character", JInt charB_m);
                          ("spatial", JInt spaceB)]);
        ("pairwise", JObj [("narrative", JStr pair_nar);
                           ("character", JStr pair_char);
                           ("spatial", JStr pair_space)])].

Definition SAVE_DIR : string := "saved_annotations".

Fixpoint has_char (c : ascii) (s : string) : bool :=
  match s with
  | EmptyString => false
  | String a s' => Ascii.eqb a c || has_char c s'
  end.

Definition has_nul (s : string) : bool := has_char Ascii.zero s.

(** What [open(p, "w")] raises when it fails: ValueError (embedded null
    byte) for a path holding a NUL, an OSError otherwise. *)
Definition open_failure (p : string) : exn :=
  if has_nul p then ValueError else OSError.

(** [f"annotations_{ldapid}.json"] prints [None] as the word None. *)
Definition fmt_ldapid (o : option string) : string :=
  match o with Some s => s | None => "None" end.

Definition json_of_ldapid (o : option string) : json :=
  match o with Some s => JStr s | None => JNull end.

(** [Path(SAVE_DIR) / f"annotations_{ldapid}.json"], as plain text. *)
Definition out_path (o : option string) : string :=
  SAVE_DIR +:+ "/" +:+ "annotations_" +:+ fmt_ldapid o +:+ ".json".

(** An action ended in an error: an exception, or an [st.error] message. *)
Definition reports_error (r : outcome unit * World) : bool :=
  match r.1 with
  | Abort (Raise _) => true
  | _ => existsb (fun o => match o with StError _ => true | _ => false end)
                 (screen r.2)
  end.

(** Modelled from the spec: [ProgressStore.load(identity)], which the script
    does not implement (nothing reads a saved file back).  It returns the
    document stored under the path [save_progress] writes for that
    identity, if any. *)
Definition load (identity : string) (d : gmap string json) : option json :=
  d !! out_path (Some identity).

(** ** A two-scene catalog and an empty one, for concrete runs *)

Definition demo_scene (sid : string) : SceneRecord :=
  {| scene_id := sid;
     shots := ["wide shot"; "close-up"];
     movie_A_image_paths := ["A/" +:+ sid +:+ "_1.png"; "A/" +:+ sid +:+ "_2.png"];
     movie_B_image_paths := ["B/" +:+ sid +:+ "_1.png"; "missing.png"] |}.

Definition demo_SCENES : list (string * SceneRecord) :=
  [("s1", demo_scene "s1"); ("s2", demo_scene "s2")].

Definition no_SCENES : list (string * SceneRecord) := [].

Definition any_writable (p : string) : bool := true.

(** A directory in which no file can be opened for writing. *)
Definition none_writable (p : string) : bool := false.

(** Images are named by their path; [missing.png] cannot be opened. *)
Definition demo_open (p : string) : exn + string :=
  if String.eqb p "missing.png" then inl OSError else inr p.

(** [st.image] draws every image but the one read from [truncated.png]. *)
Definition demo_show (img : string) : option exn :=
  if String.eqb img "truncated.png" then Some OSError else None.

(** A catalog whose second scene has no image, and one whose second scene
    starts with an image that opens but cannot be drawn. *)
Definition bare_SCENES : list (string * SceneRecord) :=
  [("s1", demo_scene "s1");
   ("e2", {| scene_id := "e2"; shots := ["wide shot"];
             movie_A_image_paths := []; movie_B_image_paths := [] |})].

Definition torn_SCENES : list (string * SceneRecord) :=
  [("s1", demo_scene "s1");
   ("t2", {| scene_id := "t2"; shots := ["wide shot"];
             movie_A_image_paths := ["truncated.png"];
             movie_B_image_paths := ["B/t2_1.png"] |})].

(** The directory made at line 12, with no sub-directory in it: a file can
    be opened for writing when its name, after the directory, holds no
    separator and no NUL. *)
Fixpoint after_prefix (pre s : string) : option string :=
  match pre, s with
  | EmptyString, _ => Some s
  | String a pre', String b s' =>
      if Ascii.eqb a b then after_prefix pre' s' else None
  | String _ _, EmptyString => None
  end.

Definition flat_dir_writable (p : string) : bool :=
  match after_prefix (SAVE_DIR +:+ "/") p with
  | Some name => negb (has_char "/"%char name) && negb (has_nul name)
  | None => false
  end.

(** An identity holding a NUL between two letters. *)
Definition nul_ident : string := String "a"%char (String Ascii.zero "b").

Definition demo_form : SceneForm :=
  {| sel_bgA := 2; sel_charA := 3; sel_cineA := 4;
     sel_bgB := 1; sel_charB := 1; sel_cineB := 1;
     sel_pair_bg := 0; sel_pair_char := 0; sel_pair_cine := 2;
     comment := "" |}.

Definition demo_movie_form : MovieForm :=
  {| sel_narA := 4; sel_charA_m := 4; sel_spaceA := 4;
     sel_narB := 0; sel_charB_m := 0; sel_spaceB := 0;
     sel_pair_nar := 0; sel_pair_char_m := 0; sel_pair_space := 0 |}.

Definition demo_other_movie_form : MovieForm :=
  {| sel_narA := 0; sel_charA_m := 1; sel_spaceA := 2;
     sel_narB := 3; sel_charB_m := 4; sel_spaceB := 4;
     sel_pair_nar := 1; sel_pair_char_m := 1; sel_pair_space := 2 |}.

Definition fresh_world : World :=
  {| session := initial_session; disk := ∅; screen := [] |}.

Section Script.

(** The catalog read at start-up (a dict, in file order), on which paths
    [open(p, "w")] succeeds, what [Image.open] does on a path, and what
    [st.image] does with an opened image (draw it, or raise). *)
Context (SCENES : list (string * SceneRecord)).
Context (writable : string -> bool).
Context {Image : Type} (Image_open : string -> exn + Image).
Context (st_image : Image -> option exn).

Definition SCENE_IDS : list string := fst <$> SCENES.
Definition TOTAL_SCENES : nat := length SCENE_IDS.

(** The dict [data] of [save_progress], lines 46-56. *)
Definition snapshot (s : SessionState) (movie_level : option json) : json :=
  let data :=
    [("ldapid", json_of_ldapid (ldapid s));
     ("progress", JObj [("completed_scenes", JInt (Z.of_nat (scene_idx s)));
                        ("total_scenes", JInt (Z.of_nat TOTAL_SCENES))]);
     ("scene_level", JList (scene_results s))] in
  JObj match movie_level with
       | Some ml => dict_set "movie_level" ml data
       | None => data
       end.

(** [with open(p, "w") as f: json.dump(data, f, indent=2)] *)
Definition write_json (p : string) (data : json) : M unit := fun w =>
  if writable p
  then (Ok tt, {| session := session w; disk := <[p := data]> (disk w);
                  screen := screen w |})
  else (Abort (Raise (open_failure p)), w).

Definition save_progress (movie_level : option json) : M unit :=
  s ← gets id;
  write_json (out_path (ldapid s)) (snapshot s movie_level).

(** What [Image.open] leaves for a path: its image, or nothing when it
    raises. *)
Definition image_at (p : string) : option Image :=
  match Image_open p with
  | inr img => Some img
  | inl _ => None
  end.

(** The loop of [load_images]; [imgs] is the list built so far. *)
Fixpoint load_images_from (paths : list string) (imgs : list (option Image))
  : M (list (option Image)) :=
  match paths with
  | [] => mret imgs
  | p :: paths' =>
      x ← try_except
            (match Image_open p with
             | inr img => mret (Some img)
             | inl e => raise e
             end)
            (mret None);
      load_images_from paths' (imgs ++ [x])
  end.

Definition load_images (paths : list string) : M (list (option Image)) :=
  load_images_from paths [].

Definition get_scene : M (option SceneRecord) :=
  idx ← gets scene_idx;
  if (TOTAL_SCENES <=? idx)%nat then mret None
  else match SCENE_IDS !! idx with
       | None => raise IndexError
       | Some k => match assoc k SCENES with
                   | None => raise KeyError
                   | Some scene => mret (Some scene)
                   end
       end.

(** [scene_idx / TOTAL_SCENES], kept as numerator and denominator. *)
Definition true_div (a b : nat) : M (nat * nat) :=
  if (b =? 0)%nat then raise ZeroDivisionError else mret (a, b).

(** The body under [if st.button("Save Scene & Continue")], lines 211-233. *)
Definition save_scene_continue (scene : SceneRecord)
    (bgA charA cineA bgB charB cineB : Z)
    (pair_bg pair_char pair_cine comment : string) : M unit :=
  modify (append_result
            (scene_result scene bgA charA cineA bgB charB cineB
                          pair_bg pair_char pair_cine comment));;
  modify incr_scene_idx;;
  save_progress None;;
  st_rerun.

(** The body under [if st.button("Submit Final Evaluation")], lines 256-277. *)
Definition submit_final (narA charA_m spaceA narB charB_m spaceB : Z)
    (pair_nar pair_char pair_space : string) : M unit :=
  save_progress
    (Some (movie_result narA charA_m spaceA narB charB_m spaceB
                        pair_nar pair_char pair_space));;
  modify (set_submitted_movie true);;
  show (StSuccess "All annotations saved successfully.").

(** Lines 88-104. *)
Definition ldap_gate (ev : Event) : M unit :=
  match ev with
  | ClickStart ldap =>
      if String.eqb (strip ldap) ""
      then show (StError "LDAP ID is required.")
      else modify (set_ldapid (strip ldap));;
           save_progress None;;
           st_rerun
  | _ => mret tt
  end;;
  st_stop.

(** [st.columns(n)] *)
Definition st_columns (n : nat) : M unit :=
  if (n =? 0)%nat then raise StreamlitAPIException else mret tt.

(** The loop over the columns, lines 170-174 and 181-185: [st.image] on
    every image that was opened, in order. *)
Fixpoint draw_images (imgs : list (option Image)) : M unit :=
  match imgs with
  | [] => mret tt
  | None :: imgs' => draw_images imgs'
  | Some img :: imgs' =>
      match st_image img with
      | Some e => raise e
      | None => mret tt
      end;;
      draw_images imgs'
  end.

(** Lines 168-174 for movie A, 179-185 for movie B. *)
Definition draw_visuals (imgs : list (option Image)) : M unit :=
  st_columns (length imgs);;
  draw_images imgs.

(** Lines 154-233.  In a run in which the button of line 210 returned True
    the visuals were drawn without raising; they are spelled out for the
    other runs. *)
Definition scene_page (ev : Event) (scene : SceneRecord) : M unit :=
  imgsA ← load_images (movie_A_image_paths scene);
  imgsB ← load_images (movie_B_image_paths scene);
  match ev with
  | ClickSaveScene f =>
      save_scene_continue scene
        (radio_rating (sel_bgA f)) (radio_rating (sel_charA f))
        (radio_rating (sel_cineA f))
        (radio_rating (sel_bgB f)) (radio_rating (sel_charB f))
        (radio_rating (sel_cineB f))
        (radio_preference (sel_pair_bg f)) (radio_preference (sel_pair_char f))
        (radio_preference (sel_pair_cine f)) (comment f)
  | _ =>
      draw_visuals imgsA;;
      draw_visuals imgsB
  end.

(** Lines 241-277. *)
Definition movie_page (ev : Event) : M unit :=
  match ev with
  | ClickSubmitFinal f =>
      submit_final
        (radio_rating (sel_narA f)) (radio_rating (sel_charA_m f))
        (radio_rating (sel_spaceA f))
        (radio_rating (sel_narB f)) (radio_rating (sel_charB_m f))
        (radio_rating (sel_spaceB f))
        (radio_preference (sel_pair_nar f))
        (radio_preference (sel_pair_char_m f))
        (radio_preference (sel_pair_space f))
  | _ => mret tt
  end.

(** One execution of the script, top to bottom, from line 88 on. *)
Definition script (ev : Event) : M unit :=
  who ← gets ldapid;
  match who with
  | None => ldap_gate ev
  | Some _ => mret tt
  end;;
  idx ← gets scene_idx;
  progress ← true_div idx TOTAL_SCENES;
  show (StProgress progress.1 progress.2);;
  scene ← get_scene;
  match scene with
  | None => show (StSuccess "All scenes completed.")
  | Some sc => scene_page ev sc
  end;;
  submitted ← gets submitted_movie;
  match scene with
  | None => if negb submitted then movie_page ev else mret tt
  | Some _ => mret tt
  end.

Definition clear_screen (w : World) : World :=
  {| session := session w; disk := disk w; screen := [] |}.

(** A user action: the script runs once, and once more without a click when
    it asked for [st.rerun()]. *)
Definition run (ev : Event) (w : World) : outcome unit * World :=
  match script ev (clear_screen w) with
  | (Abort RerunScript, w') => script NoClick (clear_screen w')
  | r => r
  end.

Definition run_all (evs : list Event) (w : World) : World :=
  fold_left (fun w ev => (run ev w).2) evs w.

(** The dicts the two handlers build when the widgets stand as in [f]. *)
Definition scene_form_result (scene : SceneRecord) (f : SceneForm) : json :=
  scene_result scene
    (radio_rating (sel_bgA f)) (radio_rating (sel_charA f))
    (radio_rating (sel_cineA f))
    (radio_rating (sel_bgB f)) (radio_rating (sel_charB f))
    (radio_rating (sel_cineB f))
    (radio_preference (sel_pair_bg f)) (radio_preference (sel_pair_char f))
    (radio_preference (sel_pair_cine f)) (comment f).

Definition movie_form_result (f : MovieForm) : json :=
  movie_result
    (radio_rating (sel_narA f)) (radio_rating (sel_charA_m f))
    (radio_rating (sel_spaceA f))
    (radio_rating (sel_narB f)) (radio_rating (sel_charB_m f))
    (radio_rating (sel_spaceB f))
    (radio_preference (sel_pair_nar f)) (radio_preference (sel_pair_char_m f))
    (radio_preference (sel_pair_space f)).

(** The spec's [submitScene(sceneId, result)].  The click delivers the
    form alone: the script has no parameter for the id of the scene the
    annotator was looking at, and reads the scene from the catalog. *)
Definition submitScene (sceneId : string) (f : SceneForm) (w : World)
  : outcome unit * World :=
  run (ClickSaveScene f) w.

(** What every reachable session satisfies: one result per completed
    scene, a cursor within the catalog, nothing done before the identity is
    set, and a final submission only after the last scene. *)
Definition consistent (s : SessionState) : Prop :=
  scene_idx s = length (scene_results s) /\
  scene_idx s <= TOTAL_SCENES /\
  (ldapid s = None -> scene_idx s = 0 /\ submitted_movie s = false) /\
  (submitted_movie s = true -> is_Some (ldapid s) /\ TOTAL_SCENES <= scene_idx s).

(** Every recorded result carries the scene_id of the catalog record at its
    position. *)
Definition aligned_with_catalog (s : SessionState) : Prop :=
  forall i r, scene_results s !! i = Some r ->
    exists k sc, SCENES !! i = Some (k, sc) /\
                 field "scene_id" r = Some (JStr (scene_id sc)).


(** Whether one row of visuals can be drawn from these paths: there is at
    least one column, and [st.image] accepts every image that opens. *)
Definition row_draws (paths : list string) : bool :=
  negb (length paths =? 0)%nat &&
  forallb (fun p => match image_at p with
                    | Some img => match st_image img with
                                  | None => true
                                  | Some _ => false
                                  end
                    | None => true
                    end) paths.

Definition page_draws (sc : SceneRecord) : bool :=
  row_draws (movie_A_image_paths sc) && row_draws (movie_B_image_paths sc).

(** ** Properties *)

Lemma bind_unfold {A B : Type} (m : M A) (f : A -> M B) (w : World) :
  (m ≫= f) w = match m w with
               | (Ok a, w') => f a w'
               | (Abort s, w') => (Abort s, w')
               end.
Proof. reflexivity. Qed.

(** *** The image loader *)

Lemma load_images_from_spec (paths : list string) (imgs : list (option Image))
    (w : World) :
  load_images_from paths imgs w = (Ok (imgs ++ (image_at <$> paths)), w).
Proof.
  revert imgs. induction paths as [|p paths IH]; intros imgs; simpl.
  - by rewrite app_nil_r.
  - rewrite bind_unfold. unfold try_except, image_at at 1.
    destruct (Image_open p) as [e|img]; simpl;
      rewrite IH, <- app_assoc; reflexivity.
Qed.

Lemma load_images_spec (paths : list string) (w : World) :
  load_images paths w = (Ok (image_at <$> paths), w).
Proof. apply load_images_from_spec. Qed.

(** *** Reading the catalog *)

Lemma assoc_lookup {A : Type} (d : list (string * A)) (i : nat) (k : string) (v : A) :
  NoDup (fst <$> d) -> d !! i = Some (k, v) -> assoc k d = Some v.
Proof.
  revert i. induction d as [|[k' v'] d IH]; intros i Hnd Hi; [done|].
  rewrite fmap_cons in Hnd.
  apply NoDup_cons in Hnd as [Hk' Hnd]. destruct i as [|i]; simpl in *.
  - injection Hi as -> ->. by rewrite String.eqb_refl.
  - destruct (String.eqb_spec k k') as [->|_]; [|by eapply IH].
    exfalso. apply Hk'. apply list_elem_of_lookup. exists i.
    by rewrite list_lookup_fmap, Hi.
Qed.

Lemma assoc_is_Some {A : Type} (d : list (string * A)) (k : string) :
  k ∈ fst <$> d -> is_Some (assoc k d).
Proof.
  induction d as [|[k' v'] d IH]; rewrite ?fmap_cons; simpl; intros Hk.
  - by apply elem_of_nil in Hk.
  - destruct (String.eqb_spec k k') as [->|Hne]; [by eexists|].
    apply IH. apply elem_of_cons in Hk as [?|?]; [done|done].
Qed.

Lemma lookup_lt_TOTAL (i : nat) (e : string * SceneRecord) :
  SCENES !! i = Some e -> i < TOTAL_SCENES.
Proof.
  intros H. unfold TOTAL_SCENES, SCENE_IDS. rewrite length_fmap.
  by eapply lookup_lt_Some.
Qed.

Lemma get_scene_past_end (w : World) :
  TOTAL_SCENES <= scene_idx (session w) -> get_scene w = (Ok None, w).
Proof.
  intros H. unfold get_scene. rewrite bind_unfold. simpl.
  by apply Nat.leb_le in H as ->.
Qed.

Lemma get_scene_at (w : World) (k : string) (sc : SceneRecord) :
  NoDup SCENE_IDS ->
  SCENES !! scene_idx (session w) = Some (k, sc) ->
  get_scene w = (Ok (Some sc), w).
Proof.
  intros Hnd Hi. unfold get_scene. rewrite bind_unfold. simpl.
  pose proof (lookup_lt_TOTAL _ _ Hi) as Hlt.
  apply Nat.leb_gt in Hlt as ->.
  unfold SCENE_IDS at 1. rewrite list_lookup_fmap, Hi. simpl.
  by rewrite (assoc_lookup _ _ _ _ Hnd Hi).
Qed.

(** [get_scene] never raises and never touches the world. *)
Lemma get_scene_total (w : World) : ∃ o, get_scene w = (Ok o, w).
Proof.
  unfold get_scene. rewrite bind_unfold. simpl.
  destruct (TOTAL_SCENES <=? scene_idx (session w))%nat eqn:E; [by eexists|].
  apply Nat.leb_gt in E.
  destruct (SCENE_IDS !! scene_idx (session w)) as [k|] eqn:Hk.
  - destruct (assoc_is_Some SCENES k) as [sc Hsc].
    { apply list_elem_of_lookup. eauto. }
    rewrite Hsc. by eexists.
  - apply lookup_ge_None in Hk. unfold TOTAL_SCENES in E. lia.
Qed.

(** *** One execution of the script *)

Ltac mstep := rewrite bind_unfold; simpl.

Lemma save_progress_eq (ml : option json) (w : World) :
  save_progress ml w =
  if writable (out_path (ldapid (session w)))
  then (Ok tt, {| session := session w;
                  disk := <[out_path (ldapid (session w))
                            := snapshot (session w) ml]> (disk w);
                  screen := screen w |})
  else (Abort (Raise (open_failure (out_path (ldapid (session w))))), w).
Proof. reflexivity. Qed.

(** Drawing either succeeds or raises; it never touches the world. *)
Lemma draw_images_frame (imgs : list (option Image)) (w : World) :
  draw_images imgs w = (Ok tt, w) \/
  exists e, draw_images imgs w = (Abort (Raise e), w).
Proof.
  induction imgs as [|[img|] imgs IH]; simpl; [by left| |done].
  rewrite bind_unfold. destruct (st_image img) as [e|]; simpl; [|done].
  right. by exists e.
Qed.

Lemma draw_visuals_frame (imgs : list (option Image)) (w : World) :
  draw_visuals imgs w = (Ok tt, w) \/
  exists e, draw_visuals imgs w = (Abort (Raise e), w).
Proof.
  unfold draw_visuals, st_columns. rewrite bind_unfold.
  destruct (length imgs =? 0)%nat; simpl.
  - right. by eexists.
  - apply draw_images_frame.
Qed.

(** What drawing both rows of a scene page comes to. *)
Lemma draw_page_frame (imgsA imgsB : list (option Image)) (w : World) :
  (draw_visuals imgsA;; draw_visuals imgsB) w = (Ok tt, w) \/
  exists e, (draw_visuals imgsA;; draw_visuals imgsB) w = (Abort (Raise e), w).
Proof.
  rewrite bind_unfold.
  destruct (draw_visuals_frame imgsA w) as [->|[e ->]]; [|right; by exists e].
  apply draw_visuals_frame.
Qed.

(** A run without a click changes neither the session nor the disk. *)
Lemma script_NoClick_eq (w : World) :
  exists o scr, script NoClick w =
    (o, {| session := session w; disk := disk w; screen := scr |}).
Proof.
  unfold script. mstep.
  destruct (ldapid (session w)) as [ident|]; simpl.
  2:{ destruct w; by eexists _, _. }
  mstep. mstep. unfold true_div.
  destruct (TOTAL_SCENES =? 0)%nat; simpl.
  { destruct w; by eexists _, _. }
  mstep. mstep. mstep.
  match goal with |- context [get_scene ?w'] =>
    destruct (get_scene_total w') as [o Ho]; rewrite Ho end.
  destruct o as [sc|]; mstep.
  - unfold scene_page. mstep. rewrite load_images_spec. mstep.
    rewrite load_images_spec.
    match goal with |- context [(draw_visuals ?a;; draw_visuals ?b) ?w'] =>
      destruct (draw_page_frame a b w') as [E|[e E]] end.
    + cbv beta iota. rewrite E. mstep. by eexists _, _.
    + cbv beta iota. rewrite E. by eexists _, _.
  - mstep. destruct (submitted_movie (session w)); by eexists _, _.
Qed.

Lemma script_NoClick_frame (w : World) :
  session (script NoClick w).2 = session w /\
  disk (script NoClick w).2 = disk w.
Proof. destruct (script_NoClick_eq w) as (o & scr & ->). done. Qed.

Lemma script_save_scene (w : World) (ident k : string) (sc : SceneRecord)
    (f : SceneForm) :
  ldapid (session w) = Some ident ->
  NoDup SCENE_IDS ->
  SCENES !! scene_idx (session w) = Some (k, sc) ->
  let s' := incr_scene_idx (append_result (scene_form_result sc f) (session w)) in
  let p := out_path (Some ident) in
  let scr := screen w ++ [StProgress (scene_idx (session w)) TOTAL_SCENES] in
  script (ClickSaveScene f) w =
  if writable p
  then (Abort RerunScript,
        {| session := s'; disk := <[p := snapshot s' None]> (disk w);
           screen := scr |})
  else (Abort (Raise (open_failure p)),
        {| session := s'; disk := disk w; screen := scr |}).
Proof.
  intros Hid Hnd Hsc. simpl. unfold script. mstep. rewrite Hid. simpl.
  mstep. mstep. unfold true_div.
  pose proof (lookup_lt_TOTAL _ _ Hsc) as Hlt.
  destruct (TOTAL_SCENES =? 0)%nat eqn:E; [apply Nat.eqb_eq in E; lia|]. simpl.
  mstep. mstep. mstep.
  rewrite (get_scene_at _ k sc Hnd) by done.
  mstep. unfold scene_page. mstep. rewrite load_images_spec. mstep.
  rewrite load_images_spec. simpl.
  unfold save_scene_continue. mstep. mstep. mstep.
  rewrite save_progress_eq. simpl. rewrite Hid.
  fold (scene_form_result sc f).
  destruct (writable (out_path (Some ident))); simpl; done.
Qed.

Lemma run_save_scene (w : World) (ident k : string) (sc : SceneRecord)
    (f : SceneForm) :
  ldapid (session w) = Some ident ->
  NoDup SCENE_IDS ->
  SCENES !! scene_idx (session w) = Some (k, sc) ->
  let r := run (ClickSaveScene f) w in
  let s' := incr_scene_idx (append_result (scene_form_result sc f) (session w)) in
  let p := out_path (Some ident) in
  session r.2 = s' /\
  disk r.2 = (if writable p then <[p := snapshot s' None]> (disk w) else disk w).
Proof.
  intros Hid Hnd Hsc. simpl. unfold run.
  rewrite (script_save_scene (clear_screen w) ident k sc f Hid Hnd Hsc).
  simpl.
  destruct (writable (out_path (Some ident))); [|done].
  match goal with |- context [script NoClick ?w'] =>
    destruct (script_NoClick_frame w') as [Hs' Hd'] end.
  rewrite Hs', Hd'. done.
Qed.

(** *** Scene submissions in catalog order *)

Lemma run_all_cons (ev : Event) (evs : list Event) (w : World) :
  run_all (ev :: evs) w = run_all evs (run ev w).2.
Proof. reflexivity. Qed.

Lemma run_all_save_scenes (forms : list SceneForm) (w : World) (ident : string) :
  NoDup SCENE_IDS ->
  ldapid (session w) = Some ident ->
  scene_idx (session w) + length forms <= TOTAL_SCENES ->
  let w' := run_all (ClickSaveScene <$> forms) w in
  ldapid (session w') = Some ident /\
  scene_idx (session w') = scene_idx (session w) + length forms /\
  scene_results (session w') =
    scene_results (session w)
    ++ zip_with scene_form_result
         (drop (scene_idx (session w)) (snd <$> SCENES)) forms.
Proof.
  intros Hnd. revert w. induction forms as [|f forms IH]; intros w Hid Hle.
  - simpl. rewrite Nat.add_0_r.
    destruct (drop _ _); simpl; by rewrite app_nil_r.
  - simpl in Hle. rewrite fmap_cons, run_all_cons.
    destruct (lookup_lt_is_Some_2 SCENES (scene_idx (session w)))
      as [[k sc] Hsc].
    { unfold TOTAL_SCENES, SCENE_IDS in Hle. rewrite length_fmap in Hle. lia. }
    destruct (run_save_scene w ident k sc f Hid Hnd Hsc) as [Hs Hd].
    set (w1 := (run (ClickSaveScene f) w).2) in *.
    destruct (IH w1) as (Hid' & Hidx' & Hres').
    { by rewrite Hs. }
    { rewrite Hs. simpl. lia. }
    cbv zeta. fold w1. rewrite Hid', Hidx', Hres', Hs. simpl.
    split; [done|]. split; [lia|].
    rewrite <- app_assoc. f_equal.
    rewrite (drop_S _ sc (scene_idx (session w))).
    + reflexivity.
    + by rewrite list_lookup_fmap, Hsc.
Qed.

(** C1.  From a fresh session with the identity set (cursor 0, no
    results), n scene submissions, n at most the number of scenes, leave
    the cursor at n and n scene results, the i-th of which carries the
    scene_id of the i-th catalog record. *)
Theorem scene_submissions_follow_catalog (ident : string)
    (d : gmap string json) (forms : list SceneForm) :
  NoDup SCENE_IDS ->
  length forms <= TOTAL_SCENES ->
  let w0 := {| session := set_ldapid ident initial_session; disk := d;
               screen := [] |} in
  let w := run_all (ClickSaveScene <$> forms) w0 in
  scene_idx (session w) = length forms /\
  length (scene_results (session w)) = length forms /\
  forall (i : nat) (k : string) (sc : SceneRecord),
    i < length forms ->
    SCENES !! i = Some (k, sc) ->
    scene_results (session w) !! i ≫= field "scene_id"
    = Some (JStr (scene_id sc)).
Proof.
  intros Hnd Hle w0 w.
  destruct (run_all_save_scenes forms w0 ident Hnd eq_refl Hle)
    as (_ & Hidx & Hres).
  fold w in Hidx, Hres. simpl in Hidx, Hres. rewrite drop_0 in Hres.
  split; [done|]. rewrite Hres. split.
  - rewrite length_zip_with, length_fmap.
    unfold TOTAL_SCENES, SCENE_IDS in Hle. rewrite length_fmap in Hle. lia.
  - intros i k sc Hi Hsc.
    destruct (lookup_lt_is_Some_2 forms i Hi) as [f Hf].
    rewrite lookup_zip_with, list_lookup_fmap, Hsc, Hf. reflexivity.
Qed.

(** *** The identity gate *)

Lemma script_start (w : World) (raw : string) :
  ldapid (session w) = None ->
  let s' := set_ldapid (strip raw) (session w) in
  let p := out_path (Some (strip raw)) in
  script (ClickStart raw) w =
  if String.eqb (strip raw) ""
  then (Abort StopScript,
        {| session := session w; disk := disk w;
           screen := screen w ++ [StError "LDAP ID is required."] |})
  else if writable p
  then (Abort RerunScript,
        {| session := s'; disk := <[p := snapshot s' None]> (disk w);
           screen := screen w |})
  else (Abort (Raise (open_failure p)),
        {| session := s'; disk := disk w; screen := screen w |}).
Proof.
  intros Hid. simpl. unfold script. mstep. rewrite Hid. simpl.
  mstep. unfold ldap_gate. mstep.
  destruct (String.eqb (strip raw) ""); simpl; [done|].
  mstep. mstep. rewrite save_progress_eq. simpl.
  destruct (writable (out_path (Some (strip raw)))); done.
Qed.

(** C6, as the script has it.  On the identity gate of a new session, a
    text that strips to nothing is refused with an error message and
    changes neither the session nor the disk; any other text sets the
    identity to the stripped text with the cursor at 0 and no results.
    The snapshot of that session is stored under the identity's path when
    that file can be opened for writing; when it cannot, nothing is stored
    and the run ends in the exception that [open] raised, with the
    identity set all the same. *)
Theorem identity_submission (raw : string) (d : gmap string json) :
  let w0 := {| session := initial_session; disk := d; screen := [] |} in
  let r := run (ClickStart raw) w0 in
  let p := out_path (Some (strip raw)) in
  (strip raw = "" ->
     reports_error r = true /\
     screen r.2 = [StError "LDAP ID is required."] /\
     session r.2 = initial_session /\
     disk r.2 = d) /\
  (strip raw <> "" ->
     ldapid (session r.2) = Some (strip raw) /\
     scene_idx (session r.2) = 0 /\
     scene_results (session r.2) = [] /\
     (writable p = true ->
        disk r.2 = <[p := snapshot (session r.2) None]> d) /\
     (writable p = false ->
        disk r.2 = d /\ r.1 = Abort (Raise (open_failure p)))).
Proof.
  intros w0 r p. subst r. unfold run.
  rewrite (script_start (clear_screen w0) raw eq_refl). simpl.
  split.
  - intros ->. simpl. done.
  - intros Hne. apply String.eqb_neq in Hne. rewrite Hne. fold p.
    destruct (writable p); simpl.
    + match goal with |- context [script NoClick ?w'] =>
        destruct (script_NoClick_frame w') as [Hs' Hd'] end.
      rewrite Hs', Hd'. simpl. done.
    + done.
Qed.

(** *** The stored snapshot *)

Lemma save_progress_ok (ml : option json) (w w' : World) :
  save_progress ml w = (Ok tt, w') ->
  session w' = session w /\
  disk w' = <[out_path (ldapid (session w)) := snapshot (session w) ml]> (disk w).
Proof.
  rewrite save_progress_eq.
  destruct (writable _); [|discriminate]. by intros [= <-].
Qed.

(** C2, as the script has it.  A successful save stores, under the path of
    the identity, a dict whose keys are [ldapid] (the identity, a
    string), [progress] (with the integers [completed_scenes], the cursor,
    and [total_scenes], the catalog size), [scene_level] (the scene results
    in order) and, exactly when the save was given a movie-level result,
    [movie_level] holding it. *)
Theorem saved_snapshot_fields (ml : option json) (w w' : World) (ident : string) :
  ldapid (session w) = Some ident ->
  save_progress ml w = (Ok tt, w') ->
  exists doc,
    disk w' !! out_path (Some ident) = Some doc /\
    field "ldapid" doc = Some (JStr ident) /\
    field "progress" doc ≫= field "completed_scenes"
      = Some (JInt (Z.of_nat (scene_idx (session w)))) /\
    field "progress" doc ≫= field "total_scenes"
      = Some (JInt (Z.of_nat TOTAL_SCENES)) /\
    field "scene_level" doc = Some (JList (scene_results (session w))) /\
    field "movie_level" doc = ml /\
    keys doc = ["ldapid"; "progress"; "scene_level"]
               ++ match ml with Some _ => ["movie_level"] | None => [] end.
Proof.
  intros Hid Hsave. apply save_progress_ok in Hsave as [_ ->].
  rewrite Hid. exists (snapshot (session w) ml).
  split; [apply lookup_insert_eq|].
  unfold snapshot. rewrite Hid. destruct ml; done.
Qed.

(** C9.  Once a save has succeeded, loading the record of the session's
    identity gives back the snapshot that was saved. *)
Theorem load_after_save (ml : option json) (w w' : World) (ident : string) :
  ldapid (session w) = Some ident ->
  save_progress ml w = (Ok tt, w') ->
  load ident (disk w') = Some (snapshot (session w) ml).
Proof.
  intros Hid Hsave. apply save_progress_ok in Hsave as [_ ->].
  unfold load. rewrite Hid. apply lookup_insert_eq.
Qed.

(** *** The image loader, as the claims read it *)

(** C8.  [load_images] never raises and leaves the world alone; every
    element it returns is either an image that [Image.open] produced for
    one of the paths or the placeholder [None], and a path on which
    [Image.open] raises yields [None]. *)
Theorem load_images_never_raises (paths : list string) (w : World) :
  exists imgs,
    load_images paths w = (Ok imgs, w) /\
    (forall x, x ∈ imgs ->
       x = None \/
       exists p img, p ∈ paths /\ Image_open p = inr img /\ x = Some img) /\
    (forall i p e,
       paths !! i = Some p -> Image_open p = inl e -> imgs !! i = Some None).
Proof.
  exists (image_at <$> paths). split; [apply load_images_spec|]. split.
  - intros x Hx. apply list_elem_of_fmap in Hx as (p & -> & Hp).
    unfold image_at. destruct (Image_open p) as [e|img] eqn:E; [by left|].
    right. by exists p, img.
  - intros i p e Hp He. rewrite list_lookup_fmap, Hp. simpl.
    unfold image_at. by rewrite He.
Qed.

(** C10.  [load_images] returns one element per path, in the order of the
    paths: at position i the image opened from the i-th path, or [None]
    when [Image.open] raises on it. *)
Theorem load_images_aligned (paths : list string) (w : World) :
  exists imgs,
    load_images paths w = (Ok imgs, w) /\
    length imgs = length paths /\
    forall i p,
      paths !! i = Some p ->
      imgs !! i = Some match Image_open p with
                       | inr img => Some img
                       | inl _ => None
                       end.
Proof.
  exists (image_at <$> paths). split; [apply load_images_spec|].
  split; [apply length_fmap|].
  intros i p Hp. by rewrite list_lookup_fmap, Hp.
Qed.

(** *** What a scene submission records *)

(** C3, as the script has it.  A scene submission names no scene: whatever
    id the annotator had in mind, while a scene is pending the handler
    takes the record at the cursor from the catalog, appends a result
    carrying that record's scene_id and advances the cursor by one. *)
Theorem scene_submission_takes_catalog_id (w : World) (ident k : string)
    (sc : SceneRecord) (sceneId : string) (f : SceneForm) :
  ldapid (session w) = Some ident ->
  NoDup SCENE_IDS ->
  SCENES !! scene_idx (session w) = Some (k, sc) ->
  let r := submitScene sceneId f w in
  scene_idx (session r.2) = S (scene_idx (session w)) /\
  exists res,
    scene_results (session r.2) = scene_results (session w) ++ [res] /\
    field "scene_id" res = Some (JStr (scene_id sc)).
Proof.
  intros Hid Hnd Hsc r. subst r. unfold submitScene.
  destruct (run_save_scene w ident k sc f Hid Hnd Hsc) as [-> _].
  split; [done|]. by exists (scene_form_result sc f).
Qed.

Lemma radio_rating_range (sel : nat) : (1 <= radio_rating sel <= 5)%Z.
Proof.
  unfold radio_rating, st_radio, ratings.
  do 5 (destruct sel as [|sel]; [simpl; lia|]). destruct sel; simpl; lia.
Qed.

Lemma radio_preference_listed (sel : nat) : radio_preference sel ∈ preferences.
Proof.
  unfold radio_preference, st_radio, preferences.
  do 3 (destruct sel as [|sel]; [simpl; set_solver|]). destruct sel; simpl; set_solver.
Qed.


(** While a scene is pending, a submission is appended with values taken
    from the radio widgets, each rating in [1,5] and each pairwise value
    one of Movie A, Movie B, Tie, and the cursor advances. *)
Lemma scene_form_values_in_range (w : World) (ident k : string)
    (sc : SceneRecord) (f : SceneForm) :
  ldapid (session w) = Some ident ->
  NoDup SCENE_IDS ->
  SCENES !! scene_idx (session w) = Some (k, sc) ->
  let r := run (ClickSaveScene f) w in
  exists bgA charA cineA bgB charB cineB pair_bg pair_char pair_cine,
    Forall (fun z => (1 <= z <= 5)%Z) [bgA; charA; cineA; bgB; charB; cineB] /\
    Forall (fun s => s ∈ ["Movie A"; "Movie B"; "Tie"])
           [pair_bg; pair_char; pair_cine] /\
    scene_results (session r.2) =
      scene_results (session w)
      ++ [scene_result sc bgA charA cineA bgB charB cineB
                       pair_bg pair_char pair_cine (comment f)] /\
    scene_idx (session r.2) = S (scene_idx (session w)).
Proof.
  intros Hid Hnd Hsc r. subst r.
  destruct (run_save_scene w ident k sc f Hid Hnd Hsc) as [-> _].
  exists (radio_rating (sel_bgA f)), (radio_rating (sel_charA f)),
         (radio_rating (sel_cineA f)), (radio_rating (sel_bgB f)),
         (radio_rating (sel_charB f)), (radio_rating (sel_cineB f)),
         (radio_preference (sel_pair_bg f)),
         (radio_preference (sel_pair_char f)),
         (radio_preference (sel_pair_cine f)).
  split; [|split; [|split; reflexivity]].
  - repeat apply Forall_cons_2; try apply Forall_nil_2;
      apply radio_rating_range.
  - repeat apply Forall_cons_2; try apply Forall_nil_2;
      apply radio_preference_listed.
Qed.

(** *** The final submission *)

Lemma script_submit_final (w : World) (ident : string) (f : MovieForm) :
  ldapid (session w) = Some ident ->
  TOTAL_SCENES <= scene_idx (session w) ->
  0 < TOTAL_SCENES ->
  submitted_movie (session w) = false ->
  let p := out_path (Some ident) in
  let scr := screen w ++ [StProgress (scene_idx (session w)) TOTAL_SCENES;
                          StSuccess "All scenes completed."] in
  script (ClickSubmitFinal f) w =
  if writable p
  then (Ok tt,
        {| session := set_submitted_movie true (session w);
           disk := <[p := snapshot (session w) (Some (movie_form_result f))]>
                     (disk w);
           screen := scr ++ [StSuccess "All annotations saved successfully."] |})
  else (Abort (Raise (open_failure p)),
        {| session := session w; disk := disk w; screen := scr |}).
Proof.
  intros Hid Hidx Hpos Hsub. simpl. unfold script. mstep. rewrite Hid. simpl.
  mstep. mstep. unfold true_div.
  destruct (TOTAL_SCENES =? 0)%nat eqn:E; [apply Nat.eqb_eq in E; lia|]. simpl.
  mstep. mstep. mstep.
  rewrite get_scene_past_end by done.
  mstep. mstep. rewrite Hsub. simpl.
  unfold movie_page, submit_final. mstep.
  rewrite save_progress_eq. simpl. rewrite Hid.
  fold (movie_form_result f).
  destruct (writable (out_path (Some ident))); simpl.
  - mstep. rewrite <- (app_assoc (screen w)). done.
  - rewrite <- app_assoc. done.
Qed.

(** Once the final evaluation is in, a further click on its button finds
    no button: the run ends normally and changes nothing but the screen. *)
Lemma script_submit_final_again (w : World) (ident : string) (f : MovieForm) :
  ldapid (session w) = Some ident ->
  TOTAL_SCENES <= scene_idx (session w) ->
  0 < TOTAL_SCENES ->
  submitted_movie (session w) = true ->
  script (ClickSubmitFinal f) w =
  (Ok tt,
   {| session := session w; disk := disk w;
      screen := screen w ++ [StProgress (scene_idx (session w)) TOTAL_SCENES;
                             StSuccess "All scenes completed."] |}).
Proof.
  intros Hid Hidx Hpos Hsub. unfold script. mstep. rewrite Hid. simpl.
  mstep. mstep. unfold true_div.
  destruct (TOTAL_SCENES =? 0)%nat eqn:E; [apply Nat.eqb_eq in E; lia|]. simpl.
  mstep. mstep. mstep.
  rewrite get_scene_past_end by done.
  mstep. mstep. rewrite Hsub. simpl.
  rewrite <- app_assoc. done.
Qed.

Lemma run_submit_final_again (w : World) (ident : string) (f : MovieForm) :
  ldapid (session w) = Some ident ->
  TOTAL_SCENES <= scene_idx (session w) ->
  0 < TOTAL_SCENES ->
  submitted_movie (session w) = true ->
  run (ClickSubmitFinal f) w =
  (Ok tt,
   {| session := session w; disk := disk w;
      screen := [StProgress (scene_idx (session w)) TOTAL_SCENES;
                 StSuccess "All scenes completed."] |}).
Proof.
  intros Hid Hidx Hpos Hsub. unfold run.
  by rewrite (script_submit_final_again (clear_screen w) ident f).
Qed.

Lemma run_all_submit_final_again (fs : list MovieForm) (w : World)
    (ident : string) :
  ldapid (session w) = Some ident ->
  TOTAL_SCENES <= scene_idx (session w) ->
  0 < TOTAL_SCENES ->
  submitted_movie (session w) = true ->
  session (run_all (ClickSubmitFinal <$> fs) w) = session w /\
  disk (run_all (ClickSubmitFinal <$> fs) w) = disk w.
Proof.
  revert w. induction fs as [|f fs IH]; intros w Hid Hidx Hpos Hsub; [done|].
  rewrite fmap_cons, run_all_cons.
  rewrite (run_submit_final_again w ident f Hid Hidx Hpos Hsub). simpl.
  match goal with |- context [run_all _ ?w1] =>
    destruct (IH w1) as [-> ->]; done end.
Qed.

(** C5, as the script has it.  With all scenes done and a writable file,
    the first final submission is stored and marks the session as
    submitted.  A second one is not processed, because the form and its
    button are no longer drawn: the run ends normally with no error
    message, and the session and the stored snapshot, with the first
    movie-level result, stay as they were, however many further final
    submissions follow. *)
Theorem final_submission_taken_once (w : World) (ident : string)
    (f1 f2 : MovieForm) (more : list MovieForm) :
  ldapid (session w) = Some ident ->
  TOTAL_SCENES <= scene_idx (session w) ->
  0 < TOTAL_SCENES ->
  submitted_movie (session w) = false ->
  writable (out_path (Some ident)) = true ->
  let r1 := run (ClickSubmitFinal f1) w in
  let r2 := run (ClickSubmitFinal f2) r1.2 in
  let w' := run_all (ClickSubmitFinal <$> more) r2.2 in
  submitted_movie (session r1.2) = true /\
  disk r1.2 !! out_path (Some ident) ≫= field "movie_level"
    = Some (movie_form_result f1) /\
  r2.1 = Ok tt /\
  reports_error r2 = false /\
  session r2.2 = session r1.2 /\
  disk r2.2 = disk r1.2 /\
  session w' = session r1.2 /\
  disk w' = disk r1.2.
Proof.
  intros Hid Hidx Hpos Hsub Hw r1 r2.
  assert (Hr1 : r1 = script (ClickSubmitFinal f1) (clear_screen w)).
  { subst r1. unfold run.
    rewrite (script_submit_final (clear_screen w) ident f1 Hid Hidx Hpos Hsub).
    simpl. by rewrite Hw. }
  rewrite (script_submit_final (clear_screen w) ident f1 Hid Hidx Hpos Hsub)
    in Hr1.
  simpl in Hr1. rewrite Hw in Hr1. clearbody r1.
  assert (Hr2 : r2 = run (ClickSubmitFinal f2) r1.2) by reflexivity.
  rewrite (run_submit_final_again r1.2 ident f2) in Hr2;
    [|rewrite ?Hr1; done..].
  clearbody r2. intros w'.
  destruct (run_all_submit_final_again more r2.2 ident) as [Hs Hd];
    [rewrite ?Hr2, ?Hr1; done..|].
  subst w'. rewrite Hs, Hd. clear Hs Hd. subst r2 r1. simpl.
  split; [done|]. split; [|done].
  rewrite lookup_insert_eq. reflexivity.
Qed.

(** ** Further properties of the script *)

(** *** [get_scene] *)

Lemma get_scene_None_iff (w : World) (o : option SceneRecord) :
  get_scene w = (Ok o, w) ->
  (o = None <-> TOTAL_SCENES <= scene_idx (session w)).
Proof.
  intros Ho. split.
  - intros ->. destruct (Nat.le_gt_cases TOTAL_SCENES (scene_idx (session w)))
      as [?|Hlt]; [done|].
    unfold get_scene in Ho. rewrite bind_unfold in Ho. simpl in Ho.
    apply Nat.leb_gt in Hlt. rewrite Hlt in Ho.
    destruct (SCENE_IDS !! scene_idx (session w)); [|discriminate].
    destruct (assoc _ _); discriminate.
  - intros Hle. rewrite get_scene_past_end in Ho by done. congruence.
Qed.

(** X1.  [get_scene] never raises (no IndexError, no KeyError) and leaves the
    world alone; it returns [None] exactly when the cursor has reached the
    number of scenes, and otherwise, the keys being distinct, the record at
    the cursor. *)
Theorem get_scene_result (w : World) :
  exists o,
    get_scene w = (Ok o, w) /\
    (o = None <-> TOTAL_SCENES <= scene_idx (session w)) /\
    (NoDup SCENE_IDS ->
     forall k sc, SCENES !! scene_idx (session w) = Some (k, sc) -> o = Some sc).
Proof.
  destruct (get_scene_total w) as [o Ho]. exists o. split; [done|].
  split; [by apply get_scene_None_iff|].
  intros Hnd k sc Hsc. rewrite (get_scene_at w k sc Hnd Hsc) in Ho. congruence.
Qed.

Lemma get_scene_session (w1 w2 : World) :
  session w1 = session w2 -> (get_scene w1).1 = (get_scene w2).1.
Proof.
  intros H. unfold get_scene. rewrite !bind_unfold. simpl. rewrite H.
  destruct (TOTAL_SCENES <=? scene_idx (session w2))%nat; [done|].
  destruct (SCENE_IDS !! scene_idx (session w2)); [|done].
  by destruct (assoc _ _).
Qed.

(** *** What one execution can do to the session and the disk *)

Lemma script_effects (ev : Event) (w : World) :
  let o := (script ev w).1 in
  let w' := (script ev w).2 in
  (session w' = session w /\ disk w' = disk w /\ o <> Abort RerunScript) \/
  (exists raw, ev = ClickStart raw /\ ldapid (session w) = None /\
     strip raw <> "" /\
     session w' = set_ldapid (strip raw) (session w) /\
     (if writable (out_path (Some (strip raw)))
      then disk w' = <[out_path (Some (strip raw))
                       := snapshot (session w') None]> (disk w)
           /\ o = Abort RerunScript
      else disk w' = disk w /\ o = Abort (Raise (open_failure (out_path (Some (strip raw))))))) \/
  (exists f ident sc, ev = ClickSaveScene f /\
     ldapid (session w) = Some ident /\
     get_scene w = (Ok (Some sc), w) /\
     session w' = incr_scene_idx
                    (append_result (scene_form_result sc f) (session w)) /\
     (if writable (out_path (Some ident))
      then disk w' = <[out_path (Some ident)
                       := snapshot (session w') None]> (disk w)
           /\ o = Abort RerunScript
      else disk w' = disk w /\ o = Abort (Raise (open_failure (out_path (Some ident)))))) \/
  (exists f ident, ev = ClickSubmitFinal f /\
     ldapid (session w) = Some ident /\
     TOTAL_SCENES <= scene_idx (session w) /\
     submitted_movie (session w) = false /\
     writable (out_path (Some ident)) = true /\
     session w' = set_submitted_movie true (session w) /\
     disk w' = <[out_path (Some ident)
                 := snapshot (session w) (Some (movie_form_result f))]> (disk w) /\
     o = Ok tt).
Proof.
  destruct (ldapid (session w)) as [ident|] eqn:Hid.
  2:{ destruct ev as [|raw|f|f];
        try (left; unfold script; mstep; rewrite Hid; done).
      rewrite (script_start w raw Hid).
      destruct (String.eqb_spec (strip raw) "") as [He|Hne].
      - left. done.
      - right. left. exists raw. repeat (split; [done|]).
        destruct (writable _); done. }
  unfold script. mstep. rewrite Hid. simpl. mstep. mstep. unfold true_div.
  destruct (TOTAL_SCENES =? 0)%nat eqn:E; simpl.
  { left. done. }
  mstep. mstep. mstep.
  set (w1 := {| session := session w; disk := disk w;
                screen := screen w ++ [StProgress (scene_idx (session w)) TOTAL_SCENES] |}).
  destruct (get_scene_total w1) as [o Ho].
  pose proof (get_scene_None_iff w1 o Ho) as Hnone.
  assert (Hw : get_scene w = (Ok o, w)).
  { destruct (get_scene_total w) as [o' Ho'].
    pose proof (get_scene_session w1 w eq_refl) as Heq.
    rewrite Ho, Ho' in Heq. simpl in Heq. congruence. }
  rewrite Ho. destruct o as [sc|]; mstep.
  - unfold scene_page. mstep. rewrite load_images_spec. mstep.
    rewrite load_images_spec.
    destruct ev as [|raw|f|f]; cbv beta iota.
    1,2,4: destruct (draw_page_frame (image_at <$> movie_A_image_paths sc)
                       (image_at <$> movie_B_image_paths sc) w1)
             as [E'|[e E']]; rewrite E'; simpl; left; done.
    simpl.
    right. right. left. exists f, ident, sc.
    split; [done|]. split; [done|]. split; [done|].
    unfold save_scene_continue. mstep. mstep. mstep.
    rewrite save_progress_eq. simpl. rewrite Hid.
    destruct (writable (out_path (Some ident))); simpl; done.
  - mstep.
    destruct (submitted_movie (session w)) eqn:Hsub; simpl; [left; done|].
    destruct ev as [|raw|f|f]; try (left; done).
    unfold movie_page, submit_final. mstep.
    rewrite save_progress_eq. simpl. rewrite Hid.
    destruct (writable (out_path (Some ident))) eqn:Hwr; simpl.
    + right. right. right. exists f, ident.
      repeat (split; [done|]). split; [by apply Hnone|]. done.
    + left. done.
Qed.

Lemma run_effects (ev : Event) (w : World) :
  let w' := (run ev w).2 in
  (session w' = session w /\ disk w' = disk w) \/
  (exists raw, ev = ClickStart raw /\ ldapid (session w) = None /\
     strip raw <> "" /\
     session w' = set_ldapid (strip raw) (session w) /\
     disk w' = if writable (out_path (Some (strip raw)))
               then <[out_path (Some (strip raw))
                      := snapshot (session w') None]> (disk w)
               else disk w) \/
  (exists f ident sc, ev = ClickSaveScene f /\
     ldapid (session w) = Some ident /\
     get_scene w = (Ok (Some sc), w) /\
     session w' = incr_scene_idx
                    (append_result (scene_form_result sc f) (session w)) /\
     disk w' = if writable (out_path (Some ident))
               then <[out_path (Some ident)
                      := snapshot (session w') None]> (disk w)
               else disk w) \/
  (exists f ident, ev = ClickSubmitFinal f /\
     ldapid (session w) = Some ident /\
     TOTAL_SCENES <= scene_idx (session w) /\
     submitted_movie (session w) = false /\
     writable (out_path (Some ident)) = true /\
     session w' = set_submitted_movie true (session w) /\
     disk w' = <[out_path (Some ident)
                 := snapshot (session w) (Some (movie_form_result f))]> (disk w)).
Proof.
  intros w'. subst w'. unfold run.
  pose proof (script_effects ev (clear_screen w)) as H. simpl in H.
  destruct (script ev (clear_screen w)) as [o w1] eqn:E. simpl in H.
  assert (Hgs : forall sc, get_scene (clear_screen w)
                             = (Ok (Some sc), clear_screen w) ->
                           get_scene w = (Ok (Some sc), w)).
  { intros sc Hsc. destruct (get_scene_total w) as [o' Ho'].
    pose proof (get_scene_session (clear_screen w) w eq_refl) as Heq.
    rewrite Hsc, Ho' in Heq. simpl in Heq. congruence. }
  destruct H as [(Hs & Hd & Ho)|[(raw & -> & Hid & Hne & Hs & Hw)|
                [(f & ident & sc & -> & Hid & Hsc & Hs & Hw)|
                 (f & ident & -> & Hid & Hidx & Hsub & Hw & Hs & Hd & ->)]]].
  - left. destruct o as [[]|[e| |]]; try done.
  - right. left. exists raw. repeat (split; [done|]).
    destruct (writable (out_path (Some (strip raw)))).
    + destruct Hw as [Hd ->].
      destruct (script_NoClick_frame (clear_screen w1)) as [Hs' Hd'].
      rewrite Hs', Hd'. simpl. rewrite Hs. split; [done|]. by rewrite Hd, Hs.
    + destruct Hw as [Hd ->]. done.
  - right. right. left. exists f, ident, sc.
    split; [done|]. split; [done|]. split; [by apply Hgs|].
    destruct (writable (out_path (Some ident))).
    + destruct Hw as [Hd ->].
      destruct (script_NoClick_frame (clear_screen w1)) as [Hs' Hd'].
      rewrite Hs', Hd'. simpl. rewrite Hs. split; [done|]. by rewrite Hd, Hs.
    + destruct Hw as [Hd ->]. done.
  - right. right. right. exists f, ident. done.
Qed.

(** *** Invariants of the session *)

Lemma get_scene_Some_lt (w : World) (sc : SceneRecord) :
  get_scene w = (Ok (Some sc), w) -> scene_idx (session w) < TOTAL_SCENES.
Proof.
  intros H.
  destruct (Nat.le_gt_cases TOTAL_SCENES (scene_idx (session w))) as [Hle|?];
    [|done].
  apply (get_scene_None_iff w (Some sc) H) in Hle. discriminate.
Qed.

Lemma run_consistent (ev : Event) (w : World) :
  consistent (session w) -> consistent (session (run ev w).2).
Proof.
  intros (H1 & H2 & H3 & H4).
  destruct (run_effects ev w)
    as [[Hs _]|[(raw & _ & Hid & _ & Hs & _)|
       [(f & ident & sc & _ & Hid & Hsc & Hs & _)|
        (f & ident & _ & Hid & Hidx & Hsub & _ & Hs & _)]]];
    rewrite Hs; clear Hs.
  - done.
  - destruct (H3 Hid) as [Hz Hf]. unfold consistent. simpl.
    split; [done|]. split; [done|]. split; [discriminate|].
    rewrite Hf. discriminate.
  - apply get_scene_Some_lt in Hsc. unfold consistent. simpl.
    rewrite length_app. simpl.
    split; [lia|]. split; [lia|]. split.
    + rewrite Hid. discriminate.
    + intros Hsub. destruct (H4 Hsub) as [_ ?]. lia.
  - unfold consistent. simpl. rewrite Hid.
    split; [done|]. split; [done|]. split; [discriminate|]. by intros _.
Qed.

Lemma run_all_snoc (evs : list Event) (ev : Event) (w : World) :
  run_all (evs ++ [ev]) w = (run ev (run_all evs w)).2.
Proof. unfold run_all. by rewrite fold_left_app. Qed.

Lemma run_all_consistent (evs : list Event) (d : gmap string json) :
  consistent (session (run_all evs {| session := initial_session; disk := d;
                                      screen := [] |})).
Proof.
  induction evs as [|ev evs IH] using rev_ind.
  - unfold consistent. simpl. repeat split; try done; lia.
  - rewrite run_all_snoc. by apply run_consistent.
Qed.

(** X2.  Whatever the annotator clicks, in whatever order, starting from a
    new session: the cursor equals the number of scene results and never
    passes the number of scenes; before the identity is set the cursor is 0
    and nothing is submitted; and the final submission is only ever recorded
    with the identity set and every scene done. *)
Theorem session_stays_consistent (evs : list Event) (d : gmap string json) :
  let w := run_all evs {| session := initial_session; disk := d;
                          screen := [] |} in
  scene_idx (session w) = length (scene_results (session w)) /\
  scene_idx (session w) <= TOTAL_SCENES /\
  (ldapid (session w) = None ->
     scene_idx (session w) = 0 /\ submitted_movie (session w) = false) /\
  (submitted_movie (session w) = true ->
     is_Some (ldapid (session w)) /\ TOTAL_SCENES <= scene_idx (session w)).
Proof.
  induction evs as [|ev evs IH] using rev_ind.
  - simpl. repeat split; try done; lia.
  - rewrite run_all_snoc. by apply run_consistent.
Qed.

Lemma run_monotone (ev : Event) (w : World) :
  let w' := (run ev w).2 in
  (forall ident, ldapid (session w) = Some ident ->
                 ldapid (session w') = Some ident) /\
  scene_idx (session w) <= scene_idx (session w') /\
  scene_results (session w) `prefix_of` scene_results (session w') /\
  (submitted_movie (session w) = true -> submitted_movie (session w') = true).
Proof.
  destruct (run_effects ev w)
    as [[Hs _]|[(raw & _ & Hid & _ & Hs & _)|
       [(f & ident & sc & _ & Hid & Hsc & Hs & _)|
        (f & ident & _ & Hid & Hidx & Hsub & _ & Hs & _)]]];
    simpl; rewrite Hs; clear Hs; simpl.
  - done.
  - split; [intros ident; rewrite Hid; discriminate|]. done.
  - split; [done|]. split; [lia|]. split; [by eexists|done].
  - done.
Qed.

(** X3.  Nothing the annotator does undoes progress: once set, the
    identity never changes; the cursor never decreases; results already
    recorded stay, in place, as a prefix of the later results; and a session
    marked as submitted stays so. *)
Theorem progress_is_never_undone (evs : list Event) (w : World) :
  let w' := run_all evs w in
  (forall ident, ldapid (session w) = Some ident ->
                 ldapid (session w') = Some ident) /\
  scene_idx (session w) <= scene_idx (session w') /\
  scene_results (session w) `prefix_of` scene_results (session w') /\
  (submitted_movie (session w) = true -> submitted_movie (session w') = true).
Proof.
  induction evs as [|ev evs IH] using rev_ind; [done|].
  rewrite run_all_snoc. simpl in IH.
  destruct IH as (I1 & I2 & I3 & I4).
  destruct (run_monotone ev (run_all evs w)) as (M1 & M2 & M3 & M4).
  split; [auto|]. split; [lia|]. split; [by etrans|auto].
Qed.

Lemma run_aligned (ev : Event) (w : World) :
  NoDup SCENE_IDS ->
  consistent (session w) ->
  aligned_with_catalog (session w) ->
  aligned_with_catalog (session (run ev w).2).
Proof.
  intros Hnd (H1 & _) Hal.
  destruct (run_effects ev w)
    as [[Hs _]|[(raw & _ & Hid & _ & Hs & _)|
       [(f & ident & sc & _ & Hid & Hsc & Hs & _)|
        (f & ident & _ & Hid & Hidx & Hsub & _ & Hs & _)]]];
    rewrite Hs; clear Hs; try done.
  intros i r. simpl. intros Hr.
  apply lookup_app_Some in Hr as [Hr|[Hge Hr]]; [by apply Hal|].
  apply list_lookup_singleton_Some in Hr as [Hi <-].
  assert (i = scene_idx (session w)) as -> by lia.
  pose proof (get_scene_Some_lt _ _ Hsc) as Hlt.
  destruct (lookup_lt_is_Some_2 SCENES (scene_idx (session w)))
    as [[k sc'] Hk].
  { unfold TOTAL_SCENES, SCENE_IDS in Hlt. by rewrite length_fmap in Hlt. }
  rewrite (get_scene_at w k sc' Hnd Hk) in Hsc. injection Hsc as <-.
  by exists k, sc'.
Qed.

(** X4.  Whatever the annotator clicks, in whatever order, starting from a
    new session, and the catalog keys being distinct: the result at every
    position i carries the scene_id of the i-th catalog record. *)
Theorem results_follow_catalog_always (evs : list Event) (d : gmap string json) :
  NoDup SCENE_IDS ->
  let w := run_all evs {| session := initial_session; disk := d;
                          screen := [] |} in
  forall i r, scene_results (session w) !! i = Some r ->
    exists k sc, SCENES !! i = Some (k, sc) /\
                 field "scene_id" r = Some (JStr (scene_id sc)).
Proof.
  intros Hnd. induction evs as [|ev evs IH] using rev_ind.
  - intros w i r. simpl. by rewrite lookup_nil.
  - rewrite run_all_snoc. apply run_aligned; [done| |exact IH].
    apply run_all_consistent.
Qed.

(** *** What a run writes *)

(** X5.  A run writes at most one file, the snapshot file of the session's
    identity: if the document under a path differs after the run, the
    identity is set and the path is the one derived from it. *)
Theorem only_own_snapshot_is_written (ev : Event) (w : World) (p : string) :
  disk (run ev w).2 !! p <> disk w !! p ->
  exists ident,
    ldapid (session (run ev w).2) = Some ident /\ p = out_path (Some ident).
Proof.
  intros Hp.
  destruct (run_effects ev w)
    as [[Hs Hd]|[(raw & _ & Hid & _ & Hs & Hd)|
       [(f & ident & sc & _ & Hid & Hsc & Hs & Hd)|
        (f & ident & _ & Hid & Hidx & Hsub & _ & Hs & Hd)]]];
    rewrite Hd in Hp; rewrite Hs; simpl.
  - done.
  - exists (strip raw). split; [done|].
    destruct (writable _); [|done].
    destruct (decide (out_path (Some (strip raw)) = p)) as [<-|Hne]; [done|].
    by rewrite lookup_insert_ne in Hp.
  - exists ident. split; [done|].
    destruct (writable _); [|done].
    destruct (decide (out_path (Some ident) = p)) as [<-|Hne]; [done|].
    by rewrite lookup_insert_ne in Hp.
  - exists ident. split; [done|].
    destruct (decide (out_path (Some ident) = p)) as [<-|Hne]; [done|].
    by rewrite lookup_insert_ne in Hp.
Qed.

(** *** Clicks that find no button *)

(** X6.  Until the identity is set, the script stops at the gate: any
    action other than Start Annotation ends in [st.stop()] with nothing
    shown and changes neither the session nor the disk. *)
Theorem gate_blocks_everything_else (ev : Event) (w : World) :
  ldapid (session w) = None ->
  (forall raw, ev <> ClickStart raw) ->
  run ev w = (Abort StopScript, clear_screen w).
Proof.
  intros Hid Hev. unfold run.
  assert (E : script ev (clear_screen w) = (Abort StopScript, clear_screen w)).
  { unfold script. mstep. rewrite Hid. simpl.
    destruct ev as [|raw|f|f]; try reflexivity. by destruct (Hev raw). }
  by rewrite E.
Qed.

(** X7.  A click on a button the page does not draw changes neither the
    session nor the disk: Start Annotation once the identity is set, Save
    Scene & Continue once every scene is done, Submit Final Evaluation
    while a scene is still pending. *)
Theorem undrawn_buttons_do_nothing (ev : Event) (w : World) :
  (exists raw, ev = ClickStart raw /\ is_Some (ldapid (session w))) \/
  (exists f, ev = ClickSaveScene f /\
             TOTAL_SCENES <= scene_idx (session w)) \/
  (exists f, ev = ClickSubmitFinal f /\
             scene_idx (session w) < TOTAL_SCENES) ->
  session (run ev w).2 = session w /\ disk (run ev w).2 = disk w.
Proof.
  intros Hev.
  destruct (run_effects ev w)
    as [H|[(raw & -> & Hid & _)|
       [(f & ident & sc & -> & Hid & Hsc & _)|
        (f & ident & -> & Hid & Hidx & _)]]]; [done|exfalso..].
  - destruct Hev as [(raw' & _ & [x Hx])|[(f & ? & _)|(f & ? & _)]];
      [congruence|done|done].
  - apply get_scene_Some_lt in Hsc.
    destruct Hev as [(raw' & ? & _)|[(f' & _ & ?)|(f' & ? & _)]];
      [done|lia|done].
  - destruct Hev as [(raw' & ? & _)|[(f' & ? & _)|(f' & _ & ?)]];
      [done|done|lia].
Qed.

(** *** When the snapshot file cannot be written *)

(** X8.  If the snapshot file cannot be opened for writing, a scene
    submission still appends its result and advances the cursor in the
    session before the exception of [open] ends the run (ValueError when
    the path holds a NUL, an OSError otherwise); the disk is untouched and
    no rerun takes place. *)
Theorem unsaved_scene_still_advances (w : World) (ident k : string)
    (sc : SceneRecord) (f : SceneForm) :
  ldapid (session w) = Some ident ->
  NoDup SCENE_IDS ->
  SCENES !! scene_idx (session w) = Some (k, sc) ->
  writable (out_path (Some ident)) = false ->
  run (ClickSaveScene f) w =
  (Abort (Raise (open_failure (out_path (Some ident)))),
   {| session := incr_scene_idx
                   (append_result (scene_form_result sc f) (session w));
      disk := disk w;
      screen := [StProgress (scene_idx (session w)) TOTAL_SCENES] |}).
Proof.
  intros Hid Hnd Hsc Hw. unfold run.
  rewrite (script_save_scene (clear_screen w) ident k sc f Hid Hnd Hsc).
  simpl. by rewrite Hw.
Qed.

(** X9.  If the snapshot file cannot be opened for writing, Start
    Annotation with a non-blank text still sets the identity in the session,
    so the gate is passed from then on, although the run ends in the
    exception of [open] (ValueError when the path holds a NUL, an OSError
    otherwise) and nothing is stored. *)
Theorem unsaved_identity_is_still_set (w : World) (raw : string) :
  ldapid (session w) = None ->
  strip raw <> "" ->
  writable (out_path (Some (strip raw))) = false ->
  run (ClickStart raw) w =
  (Abort (Raise (open_failure (out_path (Some (strip raw))))),
   {| session := set_ldapid (strip raw) (session w); disk := disk w;
      screen := [] |}).
Proof.
  intros Hid Hne Hw. unfold run.
  rewrite (script_start (clear_screen w) raw Hid). simpl.
  apply String.eqb_neq in Hne. by rewrite Hne, Hw.
Qed.

(** X10.  If the snapshot file cannot be opened for writing, the final
    submission ends in the exception of [open] (ValueError when the path
    holds a NUL, an OSError otherwise) before the session is marked as
    submitted: session and disk are unchanged, so the form is drawn again
    on the next run. *)
Theorem unsaved_final_is_not_marked (w : World) (ident : string) (f : MovieForm) :
  ldapid (session w) = Some ident ->
  TOTAL_SCENES <= scene_idx (session w) ->
  0 < TOTAL_SCENES ->
  submitted_movie (session w) = false ->
  writable (out_path (Some ident)) = false ->
  run (ClickSubmitFinal f) w =
  (Abort (Raise (open_failure (out_path (Some ident)))),
   {| session := session w; disk := disk w;
      screen := [StProgress (scene_idx (session w)) TOTAL_SCENES;
                 StSuccess "All scenes completed."] |}).
Proof.
  intros Hid Hidx Hpos Hsub Hw. unfold run.
  rewrite (script_submit_final (clear_screen w) ident f Hid Hidx Hpos Hsub).
  simpl. by rewrite Hw.
Qed.

(** *** The stored identity *)

Lemma rstrip_idemp (s : string) : rstrip (rstrip s) = rstrip s.
Proof.
  induction s as [|c s IH]; [done|]. simpl.
  destruct (rstrip s) as [|c' r] eqn:E.
  - destruct (isspace c) eqn:Ec; [done|]. simpl. by rewrite Ec.
  - change (rstrip (String c (String c' r)))
      with (match rstrip (String c' r) with
            | EmptyString => if isspace c then EmptyString
                             else String c EmptyString
            | r0 => String c r0
            end).
    by rewrite IH.
Qed.

Lemma lstrip_head (s : string) (c : ascii) (t : string) :
  lstrip s = String c t -> isspace c = false.
Proof.
  induction s as [|a s IH]; [done|]. simpl.
  destruct (isspace a) eqn:Ea; [done|]. by intros [= <- _].
Qed.

Lemma lstrip_rstrip (s : string) (c : ascii) :
  isspace c = false ->
  lstrip (rstrip (String c s)) = rstrip (String c s).
Proof.
  intros Hc. simpl. destruct (rstrip s); rewrite ?Hc; simpl; by rewrite Hc.
Qed.

Lemma strip_idemp (s : string) : strip (strip s) = strip s.
Proof.
  unfold strip. destruct (lstrip s) as [|c t] eqn:E; [done|].
  rewrite (lstrip_rstrip t c (lstrip_head s c t E)). apply rstrip_idemp.
Qed.

(** X11.  Whatever the annotator does, starting from a new session, an
    identity held by the session is never blank and has no white space at
    either end: stripping it changes nothing. *)
Theorem identity_is_trimmed (evs : list Event) (d : gmap string json)
    (ident : string) :
  let w := run_all evs {| session := initial_session; disk := d;
                          screen := [] |} in
  ldapid (session w) = Some ident ->
  ident <> "" /\ strip ident = ident.
Proof.
  revert ident. induction evs as [|ev evs IH] using rev_ind; [done|].
  intros ident. rewrite run_all_snoc. simpl in IH. simpl.
  destruct (run_effects ev (run_all evs {| session := initial_session;
                                           disk := d; screen := [] |}))
    as [[Hs _]|[(raw & _ & Hid & Hne & Hs & _)|
       [(f & id' & sc & _ & Hid & Hsc & Hs & _)|
        (f & id' & _ & Hid & Hidx & Hsub & _ & Hs & _)]]];
    rewrite Hs; simpl; try apply IH.
  intros [= <-]. split; [done|apply strip_idemp].
Qed.

(** *** [load_images] on a concatenation *)

(** X12.  Loading the images of two path lists one after the other gives
    the same images as loading the concatenated list once: each path is
    treated on its own, wherever it stands. *)
Theorem load_images_app (paths1 paths2 : list string) (w : World) :
  exists imgs1 imgs2,
    load_images paths1 w = (Ok imgs1, w) /\
    load_images paths2 w = (Ok imgs2, w) /\
    load_images (paths1 ++ paths2) w = (Ok (imgs1 ++ imgs2), w).
Proof.
  exists (image_at <$> paths1), (image_at <$> paths2).
  rewrite !load_images_spec. by rewrite fmap_app.
Qed.

(** *** The stored snapshot mirrors the session *)



(** *** A whole session *)

Lemma run_all_app (evs1 evs2 : list Event) (w : World) :
  run_all (evs1 ++ evs2) w = run_all evs2 (run_all evs1 w).
Proof. unfold run_all. by rewrite fold_left_app. Qed.

Lemma run_all_save_scenes_disk (forms : list SceneForm) (w : World)
    (ident : string) (d : gmap string json) :
  NoDup SCENE_IDS ->
  ldapid (session w) = Some ident ->
  scene_idx (session w) + length forms <= TOTAL_SCENES ->
  writable (out_path (Some ident)) = true ->
  (exists doc, disk w = <[out_path (Some ident) := doc]> d) ->
  let w' := run_all (ClickSaveScene <$> forms) w in
  submitted_movie (session w') = submitted_movie (session w) /\
  exists doc, disk w' = <[out_path (Some ident) := doc]> d.
Proof.
  intros Hnd Hid Hle Hw. revert w Hid Hle.
  induction forms as [|f forms IH]; intros w Hid Hle Hd; [done|].
  simpl in Hle. rewrite fmap_cons, run_all_cons. cbv zeta.
  destruct (lookup_lt_is_Some_2 SCENES (scene_idx (session w)))
    as [[k sc] Hsc].
  { unfold TOTAL_SCENES, SCENE_IDS in Hle. rewrite length_fmap in Hle. lia. }
  destruct (run_save_scene w ident k sc f Hid Hnd Hsc) as [Hs Hd'].
  rewrite Hw in Hd'.
  set (w1 := (run (ClickSaveScene f) w).2) in *.
  destruct (IH w1) as [Hsub Hdoc].
  { by rewrite Hs. }
  { rewrite Hs. simpl. lia. }
  { destruct Hd as [doc Hdoc]. rewrite Hd', Hdoc, insert_insert_eq.
    by eexists. }
  split; [|done]. rewrite Hsub, Hs. done.
Qed.

Lemma run_start_ok (raw : string) (w : World) :
  ldapid (session w) = None ->
  strip raw <> "" ->
  writable (out_path (Some (strip raw))) = true ->
  session (run (ClickStart raw) w).2 = set_ldapid (strip raw) (session w) /\
  disk (run (ClickStart raw) w).2
  = <[out_path (Some (strip raw))
      := snapshot (set_ldapid (strip raw) (session w)) None]> (disk w).
Proof.
  intros Hid Hne Hw. unfold run.
  rewrite (script_start (clear_screen w) raw Hid). simpl.
  apply String.eqb_neq in Hne. rewrite Hne, Hw.
  match goal with |- context [script NoClick ?w'] =>
    destruct (script_NoClick_frame w') as [-> ->] end.
  done.
Qed.

(** X14.  A whole session, start to finish.  With a non-empty catalog of
    distinct keys and a writable snapshot file, Start Annotation with a
    non-blank text, then one Save Scene & Continue per scene, then Submit
    Final Evaluation leave the session with the stripped text as identity,
    every scene done, one result per catalog record in catalog order, and
    marked as submitted; the disk differs from the initial one only in the
    identity's file, which holds the snapshot of that session with the
    movie-level result. *)
Theorem whole_session (raw : string) (forms : list SceneForm)
    (mf : MovieForm) (d : gmap string json) :
  NoDup SCENE_IDS ->
  0 < TOTAL_SCENES ->
  length forms = TOTAL_SCENES ->
  strip raw <> "" ->
  writable (out_path (Some (strip raw))) = true ->
  let w := run_all (ClickStart raw :: (ClickSaveScene <$> forms)
                      ++ [ClickSubmitFinal mf])
             {| session := initial_session; disk := d; screen := [] |} in
  let s := {| ldapid := Some (strip raw);
              scene_idx := TOTAL_SCENES;
              scene_results := zip_with scene_form_result (snd <$> SCENES) forms;
              submitted_movie := true |} in
  session w = s /\
  disk w = <[out_path (Some (strip raw))
             := snapshot s (Some (movie_form_result mf))]> d.
Proof.
  intros Hnd Hpos Hlen Hne Hw.
  rewrite run_all_cons, run_all_snoc.
  destruct (run_start_ok raw {| session := initial_session; disk := d;
                               screen := [] |} eq_refl Hne Hw) as [Hs1 H4].
  set (w1 := (run (ClickStart raw) {| session := initial_session; disk := d;
                                      screen := [] |}).2) in *.
  simpl in Hs1, H4.
  assert (H1 : ldapid (session w1) = Some (strip raw)) by (by rewrite Hs1).
  assert (H2 : scene_idx (session w1) = 0) by (by rewrite Hs1).
  assert (H3 : scene_results (session w1) = []) by (by rewrite Hs1).
  destruct (run_all_save_scenes forms w1 (strip raw) Hnd H1) as (G1 & G2 & G3).
  { rewrite H2. simpl. lia. }
  destruct (run_all_save_scenes_disk forms w1 (strip raw) d Hnd H1) as [G4 G5];
    [rewrite H2; simpl; lia|done|by eexists|].
  set (w2 := run_all (ClickSaveScene <$> forms) w1) in *.
  rewrite H2, H3 in G3. rewrite H2 in G2. simpl in G2, G3.
  rewrite drop_0 in G3.
  assert (G6 : submitted_movie (session w1) = false) by (by rewrite Hs1).
  rewrite G6 in G4.
  unfold run.
  rewrite (script_submit_final (clear_screen w2) (strip raw) mf);
    [|done|simpl; lia|done|done].
  simpl. rewrite Hw. simpl. destruct G5 as [doc ->].
  rewrite insert_insert_eq. unfold set_submitted_movie.
  rewrite G1, G2, G3, Hlen. split; [done|].
  f_equal. unfold snapshot. simpl. by rewrite G1, G2, G3, Hlen.
Qed.

(** *** Drawing a scene page *)

Lemma draw_images_spec (paths : list string) (w : World) :
  if forallb (fun p => match image_at p with
                       | Some img => match st_image img with
                                     | None => true
                                     | Some _ => false
                                     end
                       | None => true
                       end) paths
  then draw_images (image_at <$> paths) w = (Ok tt, w)
  else exists e, draw_images (image_at <$> paths) w = (Abort (Raise e), w).
Proof.
  induction paths as [|p paths IH]; [done|]. rewrite fmap_cons. simpl.
  destruct (image_at p) as [img|]; simpl; [|exact IH].
  rewrite bind_unfold. destruct (st_image img) as [e|]; simpl; [|exact IH].
  by exists e.
Qed.

Lemma draw_visuals_spec (paths : list string) (w : World) :
  if row_draws paths
  then draw_visuals (image_at <$> paths) w = (Ok tt, w)
  else exists e, draw_visuals (image_at <$> paths) w = (Abort (Raise e), w).
Proof.
  unfold row_draws, draw_visuals, st_columns. rewrite bind_unfold.
  rewrite length_fmap.
  destruct (length paths =? 0)%nat; simpl; [by eexists|].
  apply draw_images_spec.
Qed.

Lemma draw_page_spec (sc : SceneRecord) (w : World) :
  if page_draws sc
  then (draw_visuals (image_at <$> movie_A_image_paths sc);;
        draw_visuals (image_at <$> movie_B_image_paths sc)) w = (Ok tt, w)
  else exists e,
         (draw_visuals (image_at <$> movie_A_image_paths sc);;
          draw_visuals (image_at <$> movie_B_image_paths sc)) w
         = (Abort (Raise e), w).
Proof.
  unfold page_draws. rewrite bind_unfold.
  pose proof (draw_visuals_spec (movie_A_image_paths sc) w) as HA.
  destruct (row_draws (movie_A_image_paths sc)); simpl.
  - rewrite HA. apply draw_visuals_spec.
  - destruct HA as [e ->]. by exists e.
Qed.

(** A run that draws the page of a pending scene and finds no click on
    Save Scene & Continue. *)
Lemma script_pending_page (ev : Event) (w : World) (ident k : string)
    (sc : SceneRecord) :
  ldapid (session w) = Some ident ->
  NoDup SCENE_IDS ->
  SCENES !! scene_idx (session w) = Some (k, sc) ->
  (forall f, ev <> ClickSaveScene f) ->
  let w1 := {| session := session w; disk := disk w;
               screen := screen w
                         ++ [StProgress (scene_idx (session w)) TOTAL_SCENES] |} in
  script ev w =
  (match ((draw_visuals (image_at <$> movie_A_image_paths sc);;
           draw_visuals (image_at <$> movie_B_image_paths sc)) w1).1 with
   | Ok _ => Ok tt
   | Abort s => Abort s
   end, w1).
Proof.
  intros Hid Hnd Hsc Hev w1. unfold script. mstep. rewrite Hid. simpl.
  mstep. mstep. unfold true_div.
  pose proof (lookup_lt_TOTAL _ _ Hsc) as Hlt.
  destruct (TOTAL_SCENES =? 0)%nat eqn:E; [apply Nat.eqb_eq in E; lia|]. simpl.
  mstep. mstep. mstep. fold w1.
  rewrite (get_scene_at w1 k sc Hnd) by done.
  mstep. unfold scene_page. mstep. rewrite load_images_spec. mstep.
  rewrite load_images_spec.
  assert (E' : forall m : M unit,
             m = (draw_visuals (image_at <$> movie_A_image_paths sc);;
                  draw_visuals (image_at <$> movie_B_image_paths sc)) ->
             (let (o, w') := m w1 in
              match o with
              | Ok _ => (gets submitted_movie ≫= λ _ : bool, mret ()) w'
              | Abort s => (Abort s, w')
              end) = (match (m w1).1 with
                      | Ok _ => Ok tt
                      | Abort s => Abort s
                      end, w1)).
  { intros m ->.
    destruct (draw_page_frame (image_at <$> movie_A_image_paths sc)
                (image_at <$> movie_B_image_paths sc) w1) as [->|[e ->]];
      done. }
  destruct ev as [|raw|f|f]; cbv beta iota;
    [by apply E'|by apply E'|by destruct (Hev f)|by apply E'].
Qed.

(** X18.  While a scene is pending, a run that finds no click on Save
    Scene & Continue shows the progress bar and then draws the scene: it
    ends normally exactly when both rows of visuals can be drawn.  With no
    image path for movie A, [st.columns(0)] raises StreamlitAPIException;
    if [st.image] raises on the first image of movie A, that exception ends
    the run.  In every case the session and the disk are unchanged. *)
Theorem pending_page_draws_or_raises (ev : Event) (w : World)
    (ident k : string) (sc : SceneRecord) :
  ldapid (session w) = Some ident ->
  NoDup SCENE_IDS ->
  SCENES !! scene_idx (session w) = Some (k, sc) ->
  (forall f, ev <> ClickSaveScene f) ->
  let r := run ev w in
  session r.2 = session w /\
  disk r.2 = disk w /\
  screen r.2 = [StProgress (scene_idx (session w)) TOTAL_SCENES] /\
  (r.1 = Ok tt <-> page_draws sc = true) /\
  (movie_A_image_paths sc = [] -> r.1 = Abort (Raise StreamlitAPIException)) /\
  (forall p rest img e,
     movie_A_image_paths sc = p :: rest ->
     Image_open p = inr img ->
     st_image img = Some e ->
     r.1 = Abort (Raise e)).
Proof.
  intros Hid Hnd Hsc Hev r. subst r. unfold run.
  rewrite (script_pending_page ev (clear_screen w) ident k sc Hid Hnd Hsc Hev).
  simpl.
  set (w1 := {| session := session w; disk := disk w;
                screen := [StProgress (scene_idx (session w)) TOTAL_SCENES] |}).
  pose proof (draw_page_spec sc w1) as Hd.
  assert (Hr : forall o : outcome unit,
             match o with Ok _ => Ok tt | Abort s => Abort s end
             <> @Abort unit RerunScript ->
             (match o with Ok _ => Ok tt | Abort s => Abort s end, w1)
             = (let r0 := (match o with Ok _ => Ok tt | Abort s => Abort s end,
                           w1) in
                match r0 with
                | (Abort RerunScript, w') => script NoClick (clear_screen w')
                | _ => r0
                end)).
  { intros [[]|[e| |]]; done. }
  destruct (page_draws sc) eqn:Hp.
  - rewrite Hd. simpl. repeat split; try done.
    + intros HA. unfold page_draws, row_draws in Hp. rewrite HA in Hp.
      discriminate.
    + intros p rest img e HA Hop He. unfold page_draws, row_draws in Hp.
      rewrite HA in Hp. simpl in Hp. unfold image_at in Hp at 1.
      rewrite Hop, He in Hp. simpl in Hp. discriminate.
  - destruct Hd as [e0 Hd]. rewrite Hd. simpl.
    split; [done|]. split; [done|]. split; [done|]. split; [split; done|].
    unfold draw_visuals, st_columns in Hd. rewrite !bind_unfold in Hd.
    rewrite length_fmap in Hd. split.
    + intros HA. rewrite HA in Hd. simpl in Hd. by injection Hd as <-.
    + intros p rest img e HA Hop He. rewrite HA in Hd. simpl in Hd.
      unfold image_at in Hd at 1. rewrite Hop in Hd. simpl in Hd.
      rewrite bind_unfold, He in Hd. simpl in Hd. by injection Hd as <-.
Qed.

(** *** The page after a saved scene *)

Lemma script_NoClick_scene (w : World) (ident k : string) (sc : SceneRecord) :
  ldapid (session w) = Some ident ->
  NoDup SCENE_IDS ->
  SCENES !! scene_idx (session w) = Some (k, sc) ->
  page_draws sc = true ->
  script NoClick w =
  (Ok tt, {| session := session w; disk := disk w;
             screen := screen w
                       ++ [StProgress (scene_idx (session w)) TOTAL_SCENES] |}).
Proof.
  intros Hid Hnd Hsc Hp.
  rewrite (script_pending_page NoClick w ident k sc Hid Hnd Hsc) by done.
  match goal with |- context [(_ ;; _) ?w1] =>
    pose proof (draw_page_spec sc w1) as Hd end.
  rewrite Hp in Hd. by rewrite Hd.
Qed.

Lemma script_NoClick_done (w : World) (ident : string) :
  ldapid (session w) = Some ident ->
  TOTAL_SCENES <= scene_idx (session w) ->
  0 < TOTAL_SCENES ->
  script NoClick w =
  (Ok tt, {| session := session w; disk := disk w;
             screen := screen w
                       ++ [StProgress (scene_idx (session w)) TOTAL_SCENES;
                           StSuccess "All scenes completed."] |}).
Proof.
  intros Hid Hidx Hpos. unfold script. mstep. rewrite Hid. simpl.
  mstep. mstep. unfold true_div.
  destruct (TOTAL_SCENES =? 0)%nat eqn:E; [apply Nat.eqb_eq in E; lia|]. simpl.
  mstep. mstep. mstep.
  rewrite get_scene_past_end by done.
  mstep. mstep. rewrite <- app_assoc.
  by destruct (submitted_movie (session w)).
Qed.

(** X15.  After a scene is saved the page is drawn afresh for the new
    cursor.  If the saved scene was the last one, or the visuals of the
    next scene can be drawn, the run ends normally, the progress bar shows
    the new cursor over the number of scenes, and the message that all
    scenes are completed appears exactly when the saved scene was the last
    one. *)
Theorem page_after_saved_scene (w : World) (ident k : string)
    (sc : SceneRecord) (f : SceneForm) :
  ldapid (session w) = Some ident ->
  NoDup SCENE_IDS ->
  SCENES !! scene_idx (session w) = Some (k, sc) ->
  writable (out_path (Some ident)) = true ->
  (forall k' sc', SCENES !! S (scene_idx (session w)) = Some (k', sc') ->
                  page_draws sc' = true) ->
  let r := run (ClickSaveScene f) w in
  r.1 = Ok tt /\
  scene_idx (session r.2) = S (scene_idx (session w)) /\
  screen r.2 =
    StProgress (S (scene_idx (session w))) TOTAL_SCENES
    :: (if (S (scene_idx (session w)) =? TOTAL_SCENES)%nat
        then [StSuccess "All scenes completed."] else []).
Proof.
  intros Hid Hnd Hsc Hw Hnext r. subst r.
  remember (S (scene_idx (session w)) =? TOTAL_SCENES)%nat as b eqn:E.
  symmetry in E. unfold run.
  rewrite (script_save_scene (clear_screen w) ident k sc f Hid Hnd Hsc).
  simpl. rewrite Hw.
  pose proof (lookup_lt_TOTAL _ _ Hsc) as Hlt.
  destruct b.
  - apply Nat.eqb_eq in E.
    rewrite (script_NoClick_done _ ident); simpl; [done|done|lia|lia].
  - apply Nat.eqb_neq in E.
    destruct (lookup_lt_is_Some_2 SCENES (S (scene_idx (session w))))
      as [[k' sc'] Hsc'].
    { unfold TOTAL_SCENES, SCENE_IDS in Hlt, E.
      rewrite length_fmap in Hlt, E. lia. }
    rewrite (script_NoClick_scene _ ident k' sc'); simpl; try done.
    by apply (Hnext k').
Qed.

(** *** An empty catalog *)

(** X16.  With no scene in the catalog, once the identity is set every run
    ends at the progress bar with [ZeroDivisionError], whatever was
    clicked, and changes neither the session nor the disk. *)
Theorem empty_catalog_blocks_every_run (ev : Event) (w : World) :
  TOTAL_SCENES = 0 ->
  is_Some (ldapid (session w)) ->
  run ev w = (Abort (Raise ZeroDivisionError), clear_screen w).
Proof.
  intros Hz [ident Hid]. unfold run.
  assert (E : script ev (clear_screen w)
              = (Abort (Raise ZeroDivisionError), clear_screen w)).
  { unfold script. mstep. rewrite Hid. simpl. mstep. mstep.
    unfold true_div. by rewrite Hz. }
  by rewrite E.
Qed.

End Script.

(** ** Concrete runs *)

Lemma demo_keys_distinct : NoDup (SCENE_IDS demo_SCENES).
Proof. apply (bool_decide_unpack _). vm_compute. exact I. Defined.

Lemma scene_submissions_follow_catalog_witness :
  NoDup (SCENE_IDS demo_SCENES) /\
  length [demo_form; demo_form] <= TOTAL_SCENES demo_SCENES /\
  let w := run_all demo_SCENES any_writable demo_open demo_show
             (ClickSaveScene <$> [demo_form; demo_form])
             {| session := set_ldapid "abc" initial_session; disk := ∅;
                screen := [] |} in
  scene_idx (session w) = 2 /\
  length (scene_results (session w)) = 2 /\
  scene_results (session w) !! 1 ≫= field "scene_id" = Some (JStr "s2").
Proof.
  split; [exact demo_keys_distinct|]. split; [vm_compute; lia|].
  destruct (scene_submissions_follow_catalog demo_SCENES any_writable
              demo_open demo_show "abc" ∅ [demo_form; demo_form] demo_keys_distinct)
    as (H1 & H2 & H3); [vm_compute; lia|].
  split; [exact H1|]. split; [exact H2|].
  apply (H3 1 "s2" (demo_scene "s2")); [vm_compute; lia|reflexivity].
Defined.

(** The demo session once the annotator "abc" has passed the gate. *)
Lemma identity_submission_witness :
  strip "   " = "" /\
  strip " abc " <> "" /\
  any_writable (out_path (Some (strip " abc "))) = true /\
  strip "a/b" <> "" /\
  flat_dir_writable (out_path (Some (strip "a/b"))) = false /\
  (let r := run demo_SCENES any_writable demo_open demo_show (ClickStart "   ")
              fresh_world in
   reports_error r = true /\ session r.2 = initial_session /\ disk r.2 = ∅) /\
  (let r := run demo_SCENES any_writable demo_open demo_show (ClickStart " abc ")
              fresh_world in
   ldapid (session r.2) = Some "abc" /\
   scene_idx (session r.2) = 0 /\
   scene_results (session r.2) = [] /\
   disk r.2 = <[out_path (Some "abc") := snapshot demo_SCENES (session r.2) None]> ∅) /\
  (let r := run demo_SCENES flat_dir_writable demo_open demo_show (ClickStart "a/b")
              fresh_world in
   ldapid (session r.2) = Some "a/b" /\
   disk r.2 = ∅ /\
   r.1 = Abort (Raise OSError)).
Proof.
  assert (Hne : strip " abc " <> "") by (vm_compute; discriminate).
  assert (Hne' : strip "a/b" <> "") by (vm_compute; discriminate).
  split; [reflexivity|]. split; [exact Hne|]. split; [reflexivity|].
  split; [exact Hne'|]. split; [reflexivity|]. split; [|split].
  - destruct (identity_submission demo_SCENES any_writable demo_open demo_show
                "   " ∅) as [H _].
    destruct (H eq_refl) as (H1 & _ & H3 & H4). exact (conj H1 (conj H3 H4)).
  - destruct (identity_submission demo_SCENES any_writable demo_open demo_show
                " abc " ∅) as [_ H].
    destruct (H Hne) as (H1 & H2 & H3 & H4 & _).
    exact (conj H1 (conj H2 (conj H3 (H4 eq_refl)))).
  - destruct (identity_submission demo_SCENES flat_dir_writable demo_open
                demo_show "a/b" ∅) as [_ H].
    destruct (H Hne') as (H1 & _ & _ & _ & H5).
    destruct (H5 eq_refl) as [H6 H7].
    exact (conj H1 (conj H6 H7)).
Defined.

Lemma saved_snapshot_fields_witness :
  let w := {| session := set_ldapid "abc" initial_session; disk := ∅;
              screen := [] |} in
  let w' := (save_progress demo_SCENES any_writable None w).2 in
  ldapid (session w) = Some "abc" /\
  save_progress demo_SCENES any_writable None w = (Ok tt, w') /\
  exists doc,
    disk w' !! out_path (Some "abc") = Some doc /\
    field "ldapid" doc = Some (JStr "abc") /\
    field "movie_level" doc = None.
Proof.
  intros w w'. split; [reflexivity|]. split; [reflexivity|].
  destruct (saved_snapshot_fields demo_SCENES any_writable None w w' "abc"
              eq_refl eq_refl) as (doc & H1 & H2 & _ & _ & _ & H6 & _).
  exists doc. exact (conj H1 (conj H2 H6)).
Defined.

Lemma load_after_save_witness :
  let w := {| session := set_ldapid "abc" initial_session; disk := ∅;
              screen := [] |} in
  let ml := Some (movie_form_result demo_movie_form) in
  let w' := (save_progress demo_SCENES any_writable ml w).2 in
  ldapid (session w) = Some "abc" /\
  save_progress demo_SCENES any_writable ml w = (Ok tt, w') /\
  load "abc" (disk w') = Some (snapshot demo_SCENES (session w) ml).
Proof.
  intros w ml w'. split; [reflexivity|]. split; [reflexivity|].
  exact (load_after_save demo_SCENES any_writable ml w w' "abc" eq_refl eq_refl).
Defined.

Lemma load_images_never_raises_witness :
  demo_open "missing.png" = inl OSError /\
  exists imgs,
    load_images demo_open ["B/s1_1.png"; "missing.png"] fresh_world
    = (Ok imgs, fresh_world) /\
    imgs !! 1 = Some None.
Proof.
  split; [reflexivity|].
  destruct (load_images_never_raises demo_open ["B/s1_1.png"; "missing.png"]
              fresh_world) as (imgs & H1 & _ & H3).
  exists imgs. split; [exact H1|].
  exact (H3 1 "missing.png" OSError eq_refl eq_refl).
Defined.

Lemma load_images_aligned_witness :
  exists imgs,
    load_images demo_open ["B/s1_1.png"; "missing.png"] fresh_world
    = (Ok imgs, fresh_world) /\
    length imgs = 2 /\
    imgs !! 0 = Some (Some "B/s1_1.png") /\
    imgs !! 1 = Some None.
Proof.
  destruct (load_images_aligned demo_open ["B/s1_1.png"; "missing.png"]
              fresh_world) as (imgs & H1 & H2 & H3).
  exists imgs. split; [exact H1|]. split; [exact H2|].
  split; [exact (H3 0 "B/s1_1.png" eq_refl)|exact (H3 1 "missing.png" eq_refl)].
Defined.

Lemma scene_submission_takes_catalog_id_witness :
  let w := {| session := set_ldapid "abc" initial_session; disk := ∅;
              screen := [] |} in
  let r := submitScene demo_SCENES any_writable demo_open demo_show "s2" demo_form w in
  ldapid (session w) = Some "abc" /\
  NoDup (SCENE_IDS demo_SCENES) /\
  demo_SCENES !! scene_idx (session w) = Some ("s1", demo_scene "s1") /\
  scene_idx (session r.2) = 1 /\
  exists res,
    scene_results (session r.2) = [res] /\
    field "scene_id" res = Some (JStr "s1").
Proof.
  intros w r. split; [reflexivity|]. split; [exact demo_keys_distinct|].
  split; [reflexivity|].
  exact (scene_submission_takes_catalog_id demo_SCENES any_writable demo_open demo_show
           w "abc" "s1" (demo_scene "s1") "s2" demo_form
           eq_refl demo_keys_distinct eq_refl).
Defined.

Lemma scene_form_values_in_range_witness :
  let w := {| session := set_ldapid "abc" initial_session; disk := ∅;
              screen := [] |} in
  let r := run demo_SCENES any_writable demo_open demo_show (ClickSaveScene demo_form) w in
  ldapid (session w) = Some "abc" /\
  NoDup (SCENE_IDS demo_SCENES) /\
  demo_SCENES !! scene_idx (session w) = Some ("s1", demo_scene "s1") /\
  exists bgA charA cineA bgB charB cineB pair_bg pair_char pair_cine,
    Forall (fun z => (1 <= z <= 5)%Z) [bgA; charA; cineA; bgB; charB; cineB] /\
    Forall (fun s => s ∈ ["Movie A"; "Movie B"; "Tie"])
           [pair_bg; pair_char; pair_cine] /\
    scene_results (session r.2) =
      [scene_result (demo_scene "s1") bgA charA cineA bgB charB cineB
                    pair_bg pair_char pair_cine ""] /\
    scene_idx (session r.2) = 1.
Proof.
  intros w r. split; [reflexivity|]. split; [exact demo_keys_distinct|].
  split; [reflexivity|].
  exact (scene_form_values_in_range demo_SCENES any_writable demo_open demo_show
           w "abc" "s1" (demo_scene "s1") demo_form
           eq_refl demo_keys_distinct eq_refl).
Defined.

(** The demo session with both scenes rated and the final form pending. *)
Lemma final_submission_taken_once_witness :
  let w := {| session := {| ldapid := Some "abc"; scene_idx := 2;
                            scene_results := [scene_form_result (demo_scene "s1") demo_form;
                                              scene_form_result (demo_scene "s2") demo_form];
                            submitted_movie := false |};
              disk := ∅; screen := [] |} in
  let r1 := run demo_SCENES any_writable demo_open demo_show (ClickSubmitFinal demo_movie_form) w in
  let r2 := run demo_SCENES any_writable demo_open demo_show (ClickSubmitFinal demo_other_movie_form) r1.2 in
  let w' := run_all demo_SCENES any_writable demo_open demo_show
              (ClickSubmitFinal <$> [demo_movie_form; demo_other_movie_form])
              r2.2 in
  ldapid (session w) = Some "abc" /\
  TOTAL_SCENES demo_SCENES <= scene_idx (session w) /\
  0 < TOTAL_SCENES demo_SCENES /\
  submitted_movie (session w) = false /\
  any_writable (out_path (Some "abc")) = true /\
  submitted_movie (session r1.2) = true /\
  disk r1.2 !! out_path (Some "abc") ≫= field "movie_level"
    = Some (movie_form_result demo_movie_form) /\
  r2.1 = Ok tt /\
  reports_error r2 = false /\
  session r2.2 = session r1.2 /\
  disk r2.2 = disk r1.2 /\
  session w' = session r1.2 /\
  disk w' = disk r1.2.
Proof.
  intros w r1 r2 w'.
  assert (H1 : TOTAL_SCENES demo_SCENES <= scene_idx (session w))
    by (vm_compute; lia).
  assert (H2 : 0 < TOTAL_SCENES demo_SCENES) by (vm_compute; lia).
  split; [reflexivity|]. split; [exact H1|]. split; [exact H2|].
  split; [reflexivity|]. split; [reflexivity|].
  exact (final_submission_taken_once demo_SCENES any_writable demo_open demo_show
           w "abc" demo_movie_form demo_other_movie_form
           [demo_movie_form; demo_other_movie_form]
           eq_refl H1 H2 eq_refl eq_refl).
Defined.

(** ** Where the script departs from the claims *)

(** C2, as written: the stored dict has no field named identity. *)
Lemma snapshot_has_no_identity_field :
  let w := (run demo_SCENES any_writable demo_open demo_show (ClickStart "abc")
              fresh_world).2 in
  exists doc,
    disk w !! out_path (Some "abc") = Some doc /\
    field "identity" doc = None /\
    keys doc = ["ldapid"; "progress"; "scene_level"].
Proof. eexists. split; [vm_compute; reflexivity|]. split; reflexivity. Qed.

(** C6, as written: in the directory the script has just made, the text
    a/b is not blank, yet no snapshot is persisted for it: the file lies in
    a sub-directory that does not exist, [open] raises, and the identity
    is set with nothing stored. *)
Lemma identity_with_separator_is_not_saved :
  let r := run demo_SCENES flat_dir_writable demo_open demo_show
             (ClickStart "a/b") fresh_world in
  strip "a/b" = "a/b" /\
  "a/b" <> "" /\
  flat_dir_writable (out_path (Some "abc")) = true /\
  flat_dir_writable (out_path (Some "a/b")) = false /\
  r.1 = Abort (Raise OSError) /\
  ldapid (session r.2) = Some "a/b" /\
  disk r.2 = ∅.
Proof.
  repeat split; try (vm_compute; reflexivity). discriminate.
Qed.

(** C3, as written: with scene s1 pending, a submission meant for s2 is
    taken, recorded under s1 and saved. *)
Lemma stale_scene_id_is_accepted :
  let w := (run demo_SCENES any_writable demo_open demo_show (ClickStart "abc")
              fresh_world).2 in
  let r := submitScene demo_SCENES any_writable demo_open demo_show "s2" demo_form w in
  scene_id <$> (snd <$> demo_SCENES !! scene_idx (session w)) = Some "s1" /\
  "s2" <> "s1" /\
  reports_error r = false /\
  scene_idx (session w) = 0 /\
  scene_idx (session r.2) = 1 /\
  scene_results (session w) = [] /\
  scene_results (session r.2) !! 0 ≫= field "scene_id" = Some (JStr "s1") /\
  disk r.2 !! out_path (Some "abc") <> disk w !! out_path (Some "abc").
Proof.
  repeat split; try (vm_compute; reflexivity); vm_compute; discriminate.
Qed.

(** C5, as written: the second final submission is met with no error. *)
Lemma second_final_click_reports_nothing :
  let w := run_all demo_SCENES any_writable demo_open demo_show
             [ClickStart "abc"; ClickSaveScene demo_form;
              ClickSaveScene demo_form; ClickSubmitFinal demo_movie_form]
             fresh_world in
  let r := run demo_SCENES any_writable demo_open demo_show
             (ClickSubmitFinal demo_other_movie_form) w in
  submitted_movie (session w) = true /\
  r.1 = Ok tt /\
  reports_error r = false.
Proof. repeat split; vm_compute; reflexivity. Qed.

(** C7.  With an empty catalog the identity is accepted and saved, and the
    run that follows stops at the progress bar with a division by zero; so
    does every later run, whatever the annotator does. *)
Theorem empty_catalog_division_by_zero :
  let r := run no_SCENES any_writable demo_open demo_show (ClickStart "abc") fresh_world in
  r.1 = Abort (Raise ZeroDivisionError) /\
  ldapid (session r.2) = Some "abc" /\
  is_Some (disk r.2 !! out_path (Some "abc")) /\
  forall ev : Event,
    (run no_SCENES any_writable demo_open demo_show ev r.2).1
    = Abort (Raise ZeroDivisionError).
Proof.
  split; [vm_compute; reflexivity|]. split; [vm_compute; reflexivity|].
  split; [vm_compute; eauto|].
  intros ev. destruct ev; reflexivity.
Qed.

(** ** Further concrete runs *)

Lemma get_scene_result_witness :
  NoDup (SCENE_IDS demo_SCENES) /\
  demo_SCENES !! scene_idx (session fresh_world) = Some ("s1", demo_scene "s1") /\
  get_scene demo_SCENES fresh_world = (Ok (Some (demo_scene "s1")), fresh_world).
Proof.
  split; [exact demo_keys_distinct|]. split; [reflexivity|].
  destruct (get_scene_result demo_SCENES fresh_world) as (o & Ho & _ & H).
  rewrite Ho, (H demo_keys_distinct "s1" (demo_scene "s1") eq_refl).
  reflexivity.
Defined.

Lemma session_stays_consistent_witness :
  let w1 := run_all demo_SCENES any_writable demo_open demo_show
              [ClickSaveScene demo_form; ClickSubmitFinal demo_movie_form]
              fresh_world in
  let w2 := run_all demo_SCENES any_writable demo_open demo_show
              [ClickStart "abc"; ClickSaveScene demo_form;
               ClickSaveScene demo_form; ClickSubmitFinal demo_movie_form]
              fresh_world in
  ldapid (session w1) = None /\
  submitted_movie (session w2) = true /\
  (scene_idx (session w1) = 0 /\ submitted_movie (session w1) = false) /\
  (is_Some (ldapid (session w2)) /\
   TOTAL_SCENES demo_SCENES <= scene_idx (session w2)).
Proof.
  intros w1 w2.
  assert (H1 : ldapid (session w1) = None) by (vm_compute; reflexivity).
  assert (H2 : submitted_movie (session w2) = true) by (vm_compute; reflexivity).
  split; [exact H1|]. split; [exact H2|]. split.
  - destruct (session_stays_consistent demo_SCENES any_writable demo_open demo_show
                [ClickSaveScene demo_form; ClickSubmitFinal demo_movie_form] ∅)
      as (_ & _ & H & _).
    exact (H H1).
  - destruct (session_stays_consistent demo_SCENES any_writable demo_open demo_show
                [ClickStart "abc"; ClickSaveScene demo_form;
                 ClickSaveScene demo_form; ClickSubmitFinal demo_movie_form] ∅)
      as (_ & _ & _ & H).
    exact (H H2).
Defined.

Lemma progress_is_never_undone_witness :
  let w := (run demo_SCENES any_writable demo_open demo_show (ClickStart "abc")
              fresh_world).2 in
  let w' := run_all demo_SCENES any_writable demo_open demo_show
              [ClickStart "zzz"; ClickSaveScene demo_form] w in
  ldapid (session w) = Some "abc" /\
  ldapid (session w') = Some "abc" /\
  scene_idx (session w) <= scene_idx (session w').
Proof.
  intros w w'.
  assert (H : ldapid (session w) = Some "abc") by (vm_compute; reflexivity).
  split; [exact H|].
  destruct (progress_is_never_undone demo_SCENES any_writable demo_open demo_show
              [ClickStart "zzz"; ClickSaveScene demo_form] w)
    as (H1 & H2 & _).
  exact (conj (H1 "abc" H) H2).
Defined.

Lemma results_follow_catalog_always_witness :
  let w := run_all demo_SCENES any_writable demo_open demo_show
             [ClickSaveScene demo_form; ClickStart "abc";
              ClickSubmitFinal demo_movie_form; ClickSaveScene demo_form]
             fresh_world in
  NoDup (SCENE_IDS demo_SCENES) /\
  scene_results (session w) !! 0
    = Some (scene_form_result (demo_scene "s1") demo_form) /\
  exists k sc, demo_SCENES !! 0 = Some (k, sc) /\
    field "scene_id" (scene_form_result (demo_scene "s1") demo_form)
    = Some (JStr (scene_id sc)).
Proof.
  intros w.
  assert (H : scene_results (session w) !! 0
              = Some (scene_form_result (demo_scene "s1") demo_form))
    by (vm_compute; reflexivity).
  split; [exact demo_keys_distinct|]. split; [exact H|].
  exact (results_follow_catalog_always demo_SCENES any_writable demo_open demo_show
           [ClickSaveScene demo_form; ClickStart "abc";
            ClickSubmitFinal demo_movie_form; ClickSaveScene demo_form]
           ∅ demo_keys_distinct 0 _ H).
Defined.

Lemma only_own_snapshot_is_written_witness :
  let r := run demo_SCENES any_writable demo_open demo_show (ClickStart "abc") fresh_world in
  disk r.2 !! out_path (Some "abc") <> disk fresh_world !! out_path (Some "abc") /\
  exists ident,
    ldapid (session r.2) = Some ident /\
    out_path (Some "abc") = out_path (Some ident).
Proof.
  intros r.
  assert (H : disk r.2 !! out_path (Some "abc")
              <> disk fresh_world !! out_path (Some "abc"))
    by (vm_compute; discriminate).
  split; [exact H|].
  exact (only_own_snapshot_is_written demo_SCENES any_writable demo_open demo_show
           (ClickStart "abc") fresh_world (out_path (Some "abc")) H).
Defined.

Lemma gate_blocks_everything_else_witness :
  ldapid (session fresh_world) = None /\
  (forall raw, ClickSaveScene demo_form <> ClickStart raw) /\
  run demo_SCENES any_writable demo_open demo_show (ClickSaveScene demo_form) fresh_world
  = (Abort StopScript, clear_screen fresh_world).
Proof.
  assert (H : forall raw, ClickSaveScene demo_form <> ClickStart raw)
    by (intros raw; discriminate).
  split; [reflexivity|]. split; [exact H|].
  exact (gate_blocks_everything_else demo_SCENES any_writable demo_open demo_show
           (ClickSaveScene demo_form) fresh_world eq_refl H).
Defined.

Lemma undrawn_buttons_do_nothing_witness :
  let w := {| session := set_ldapid "abc" initial_session; disk := ∅;
              screen := [] |} in
  let r := run demo_SCENES any_writable demo_open demo_show
             (ClickSubmitFinal demo_movie_form) w in
  scene_idx (session w) < TOTAL_SCENES demo_SCENES /\
  session r.2 = session w /\ disk r.2 = disk w.
Proof.
  intros w r.
  assert (H : scene_idx (session w) < TOTAL_SCENES demo_SCENES)
    by (vm_compute; lia).
  split; [exact H|].
  apply (undrawn_buttons_do_nothing demo_SCENES any_writable demo_open demo_show
           (ClickSubmitFinal demo_movie_form) w).
  right. right. exists demo_movie_form. exact (conj eq_refl H).
Defined.

Lemma unsaved_scene_still_advances_witness :
  let w := {| session := set_ldapid nul_ident initial_session; disk := ∅;
              screen := [] |} in
  let r := run demo_SCENES flat_dir_writable demo_open demo_show
             (ClickSaveScene demo_form) w in
  ldapid (session w) = Some nul_ident /\
  NoDup (SCENE_IDS demo_SCENES) /\
  demo_SCENES !! scene_idx (session w) = Some ("s1", demo_scene "s1") /\
  flat_dir_writable (out_path (Some nul_ident)) = false /\
  r.1 = Abort (Raise ValueError) /\
  scene_idx (session r.2) = 1 /\
  disk r.2 = ∅.
Proof.
  intros w r. split; [reflexivity|]. split; [exact demo_keys_distinct|].
  split; [reflexivity|]. split; [reflexivity|].
  subst r.
  rewrite (unsaved_scene_still_advances demo_SCENES flat_dir_writable demo_open
             demo_show w nul_ident "s1" (demo_scene "s1") demo_form
             eq_refl demo_keys_distinct eq_refl eq_refl).
  split; [reflexivity|]. split; reflexivity.
Defined.

Lemma unsaved_identity_is_still_set_witness :
  let r := run demo_SCENES flat_dir_writable demo_open demo_show
             (ClickStart nul_ident) fresh_world in
  let r' := run demo_SCENES flat_dir_writable demo_open demo_show
              (ClickStart " a/b ") fresh_world in
  ldapid (session fresh_world) = None /\
  strip nul_ident <> "" /\
  flat_dir_writable (out_path (Some (strip nul_ident))) = false /\
  strip " a/b " <> "" /\
  flat_dir_writable (out_path (Some (strip " a/b "))) = false /\
  r.1 = Abort (Raise ValueError) /\
  ldapid (session r.2) = Some nul_ident /\
  disk r.2 = ∅ /\
  r'.1 = Abort (Raise OSError) /\
  ldapid (session r'.2) = Some "a/b" /\
  disk r'.2 = ∅.
Proof.
  intros r r'.
  assert (Hne : strip nul_ident <> "") by (vm_compute; discriminate).
  assert (Hne' : strip " a/b " <> "") by (vm_compute; discriminate).
  split; [reflexivity|]. split; [exact Hne|]. split; [reflexivity|].
  split; [exact Hne'|]. split; [reflexivity|].
  subst r r'.
  rewrite (unsaved_identity_is_still_set demo_SCENES flat_dir_writable
             demo_open demo_show fresh_world nul_ident eq_refl Hne eq_refl).
  rewrite (unsaved_identity_is_still_set demo_SCENES flat_dir_writable
             demo_open demo_show fresh_world " a/b " eq_refl Hne' eq_refl).
  repeat split; reflexivity.
Defined.

Lemma unsaved_final_is_not_marked_witness :
  let w := {| session := {| ldapid := Some "a/b"; scene_idx := 2;
                            scene_results := [scene_form_result (demo_scene "s1") demo_form;
                                              scene_form_result (demo_scene "s2") demo_form];
                            submitted_movie := false |};
              disk := ∅; screen := [] |} in
  let r := run demo_SCENES flat_dir_writable demo_open demo_show
             (ClickSubmitFinal demo_movie_form) w in
  ldapid (session w) = Some "a/b" /\
  TOTAL_SCENES demo_SCENES <= scene_idx (session w) /\
  0 < TOTAL_SCENES demo_SCENES /\
  submitted_movie (session w) = false /\
  flat_dir_writable (out_path (Some "a/b")) = false /\
  r.1 = Abort (Raise OSError) /\
  session r.2 = session w /\
  disk r.2 = disk w.
Proof.
  intros w r.
  assert (H1 : TOTAL_SCENES demo_SCENES <= scene_idx (session w))
    by (vm_compute; lia).
  assert (H2 : 0 < TOTAL_SCENES demo_SCENES) by (vm_compute; lia).
  split; [reflexivity|]. split; [exact H1|]. split; [exact H2|].
  split; [reflexivity|]. split; [reflexivity|].
  subst r.
  rewrite (unsaved_final_is_not_marked demo_SCENES flat_dir_writable demo_open
             demo_show w "a/b" demo_movie_form eq_refl H1 H2 eq_refl eq_refl).
  split; [reflexivity|]. split; reflexivity.
Defined.

Lemma identity_is_trimmed_witness :
  let w := run_all demo_SCENES any_writable demo_open demo_show
             [ClickStart "  abc "; ClickStart " zzz"] fresh_world in
  ldapid (session w) = Some "abc" /\
  "abc" <> "" /\ strip "abc" = "abc".
Proof.
  intros w.
  assert (H : ldapid (session w) = Some "abc") by (vm_compute; reflexivity).
  split; [exact H|].
  exact (identity_is_trimmed demo_SCENES any_writable demo_open demo_show
           [ClickStart "  abc "; ClickStart " zzz"] ∅ "abc" H).
Defined.


Lemma whole_session_witness :
  let w := run_all demo_SCENES any_writable demo_open demo_show
             (ClickStart " abc " :: (ClickSaveScene <$> [demo_form; demo_form])
                ++ [ClickSubmitFinal demo_movie_form])
             fresh_world in
  NoDup (SCENE_IDS demo_SCENES) /\
  0 < TOTAL_SCENES demo_SCENES /\
  length [demo_form; demo_form] = TOTAL_SCENES demo_SCENES /\
  strip " abc " <> "" /\
  any_writable (out_path (Some (strip " abc "))) = true /\
  ldapid (session w) = Some "abc" /\
  scene_idx (session w) = 2 /\
  submitted_movie (session w) = true.
Proof.
  intros w.
  assert (H2 : 0 < TOTAL_SCENES demo_SCENES) by (vm_compute; lia).
  assert (Hne : strip " abc " <> "") by (vm_compute; discriminate).
  split; [exact demo_keys_distinct|]. split; [exact H2|].
  split; [reflexivity|]. split; [exact Hne|]. split; [reflexivity|].
  destruct (whole_session demo_SCENES any_writable demo_open demo_show " abc "
              [demo_form; demo_form] demo_movie_form ∅
              demo_keys_distinct H2 eq_refl Hne eq_refl) as [Hs _].
  unfold w, fresh_world. rewrite Hs. split; [reflexivity|]. split; reflexivity.
Defined.

Lemma demo_second_page_draws :
  forall k' sc',
    demo_SCENES !! 1 = Some (k', sc') -> page_draws demo_open demo_show sc' = true.
Proof. intros k' sc' [= <- <-]. reflexivity. Defined.

Lemma page_after_saved_scene_witness :
  let w := {| session := set_ldapid "abc" initial_session; disk := ∅;
              screen := [] |} in
  let r := run demo_SCENES any_writable demo_open demo_show
             (ClickSaveScene demo_form) w in
  ldapid (session w) = Some "abc" /\
  NoDup (SCENE_IDS demo_SCENES) /\
  demo_SCENES !! scene_idx (session w) = Some ("s1", demo_scene "s1") /\
  any_writable (out_path (Some "abc")) = true /\
  (forall k' sc', demo_SCENES !! S (scene_idx (session w)) = Some (k', sc') ->
                  page_draws demo_open demo_show sc' = true) /\
  r.1 = Ok tt /\
  scene_idx (session r.2) = 1 /\
  screen r.2 = [StProgress 1 2].
Proof.
  intros w r. split; [reflexivity|]. split; [exact demo_keys_distinct|].
  split; [reflexivity|]. split; [reflexivity|].
  split; [exact demo_second_page_draws|].
  exact (page_after_saved_scene demo_SCENES any_writable demo_open demo_show
           w "abc" "s1" (demo_scene "s1") demo_form
           eq_refl demo_keys_distinct eq_refl eq_refl demo_second_page_draws).
Defined.

Lemma bare_keys_distinct : NoDup (SCENE_IDS bare_SCENES).
Proof. apply (bool_decide_unpack _). vm_compute. exact I. Defined.

Lemma torn_keys_distinct : NoDup (SCENE_IDS torn_SCENES).
Proof. apply (bool_decide_unpack _). vm_compute. exact I. Defined.

Lemma pending_page_draws_or_raises_witness :
  let w := {| session := {| ldapid := Some "abc"; scene_idx := 1;
                            scene_results := [scene_form_result (demo_scene "s1") demo_form];
                            submitted_movie := false |};
              disk := ∅; screen := [] |} in
  let r0 := run demo_SCENES any_writable demo_open demo_show NoClick w in
  let r1 := run bare_SCENES any_writable demo_open demo_show NoClick w in
  let r2 := run torn_SCENES any_writable demo_open demo_show NoClick w in
  ldapid (session w) = Some "abc" /\
  NoDup (SCENE_IDS demo_SCENES) /\
  NoDup (SCENE_IDS bare_SCENES) /\
  NoDup (SCENE_IDS torn_SCENES) /\
  (forall f, NoClick <> ClickSaveScene f) /\
  page_draws demo_open demo_show (demo_scene "s2") = true /\
  demo_open "truncated.png" = inr "truncated.png" /\
  demo_show "truncated.png" = Some OSError /\
  r0.1 = Ok tt /\
  r1.1 = Abort (Raise StreamlitAPIException) /\
  r2.1 = Abort (Raise OSError) /\
  session r1.2 = session w /\
  session r2.2 = session w.
Proof.
  intros w r0 r1 r2.
  assert (Hev : forall f, NoClick <> ClickSaveScene f) by (intros f; discriminate).
  assert (Hp : page_draws demo_open demo_show (demo_scene "s2") = true)
    by reflexivity.
  split; [reflexivity|]. split; [exact demo_keys_distinct|].
  split; [exact bare_keys_distinct|]. split; [exact torn_keys_distinct|].
  split; [exact Hev|]. split; [exact Hp|].
  split; [reflexivity|]. split; [reflexivity|].
  destruct (pending_page_draws_or_raises demo_SCENES any_writable demo_open
              demo_show NoClick w "abc" "s2" (demo_scene "s2")
              eq_refl demo_keys_distinct eq_refl Hev)
    as (_ & _ & _ & [_ H0] & _).
  destruct (pending_page_draws_or_raises bare_SCENES any_writable demo_open
              demo_show NoClick w "abc" "e2" _
              eq_refl bare_keys_distinct eq_refl Hev)
    as (S1 & _ & _ & _ & H1 & _).
  destruct (pending_page_draws_or_raises torn_SCENES any_writable demo_open
              demo_show NoClick w "abc" "t2" _
              eq_refl torn_keys_distinct eq_refl Hev)
    as (S2 & _ & _ & _ & _ & H2).
  split; [exact (H0 Hp)|]. split; [exact (H1 eq_refl)|].
  split; [exact (H2 "truncated.png" [] "truncated.png" OSError
                    eq_refl eq_refl eq_refl)|].
  exact (conj S1 S2).
Defined.

Lemma empty_catalog_blocks_every_run_witness :
  let w := {| session := set_ldapid "abc" initial_session; disk := ∅;
              screen := [] |} in
  TOTAL_SCENES no_SCENES = 0 /\
  is_Some (ldapid (session w)) /\
  run no_SCENES any_writable demo_open demo_show (ClickSubmitFinal demo_movie_form) w
  = (Abort (Raise ZeroDivisionError), clear_screen w).
Proof.
  intros w.
  assert (H : is_Some (ldapid (session w))) by (exists "abc"; reflexivity).
  split; [reflexivity|]. split; [exact H|].
  exact (empty_catalog_blocks_every_run no_SCENES any_writable demo_open demo_show
           (ClickSubmitFinal demo_movie_form) w eq_refl H).
Defined.
